(** * Character chat system: persona store, turn store and conversation engine

    Shallow embedding of [main.py]: the two tables ([Character],
    [Conversation]), the queries the program runs over them, the functions
    [add_character], [chat_with_character], [get_chat_history] and
    [auto_select_character], and the properties of the written design
    checked against them.

    Conventions.  A Python [str] is a [string]; a value that may be [None]
    is an [option].  A table is the list of its rows in insertion order.
    What the program obtains from outside (a fresh UUID, the clock, the
    answer of the remote model, the verdict of a commit) is read from a
    [World] record.  A raised exception is an explicit [Raise]. *)

From Stdlib Require Import String Ascii List ZArith NArith Bool Lia.
From Stdlib Require Import DecimalString Sorted Permutation.
Import ListNotations.

Local Open Scope list_scope.
Local Open Scope string_scope.

(** ** Python values and strings *)

Module Py.

(** The newline character of the f-strings. *)
Definition nl : string := String (ascii_of_nat 10) EmptyString.

(** [str(x)] inside an f-string placeholder, for a value that is a [str] or
    [None]. *)
Definition fmt (x : option string) : string :=
  match x with
  | Some s => s
  | None => "None"
  end.

(** [str(n)] for an integer. *)
Definition str_int (n : Z) : string := NilZero.string_of_int (Z.to_int n).

(** [sep.join(parts)]. *)
Fixpoint join (sep : string) (parts : list string) : string :=
  match parts with
  | [] => ""
  | [p] => p
  | p :: rest => p ++ sep ++ join sep rest
  end.

(** Truth value of a [str]-or-[None] in a condition: [None] and the empty
    string are false. *)
Definition truthy (x : option string) : bool :=
  match x with
  | None => false
  | Some "" => false
  | Some _ => true
  end.

(** [c.lower()] on one (ASCII) character. *)
Definition lower_char (c : ascii) : ascii :=
  let n := N_of_ascii c in
  if ((65 <=? n) && (n <=? 90))%N then ascii_of_N (n + 32) else c.

(** [s.lower()]. *)
Fixpoint lower (s : string) : string :=
  match s with
  | EmptyString => EmptyString
  | String c rest => String (lower_char c) (lower rest)
  end.

(** [s.startswith(p)]. *)
Fixpoint startswith (p s : string) : bool :=
  match p, s with
  | EmptyString, _ => true
  | String _ _, EmptyString => false
  | String a p', String b s' => Ascii.eqb a b && startswith p' s'
  end.

(** [sub in s] for two strings: [sub] occurs somewhere in [s]. *)
Fixpoint contains (sub s : string) : bool :=
  startswith sub s ||
  match s with
  | EmptyString => false
  | String _ rest => contains sub rest
  end.

(** [any(p(x) for x in xs)]. *)
Definition any {A : Type} (p : A -> bool) (xs : list A) : bool := existsb p xs.

(** [s[:n]]. *)
Fixpoint slice_to (n : nat) (s : string) : string :=
  match n, s with
  | O, _ => EmptyString
  | S _, EmptyString => EmptyString
  | S n', String c rest => String c (slice_to n' rest)
  end.

End Py.

(** Exceptions.  The program only ever looks at [str(e)], so an exception is
    its class together with the text [str(e)] gives ([repr] of the key for a
    [KeyError]); [ExternalError] stands for whatever a library call raises. *)
Inductive exn : Type :=
| TypeError (msg : string)
| KeyError (key_repr : string)
| IndexError (msg : string)
| ExternalError (msg : string).

Definition str_exn (e : exn) : string :=
  match e with
  | TypeError msg => msg
  | KeyError key_repr => key_repr
  | IndexError msg => msg
  | ExternalError msg => msg
  end.

(** The outcome of evaluating a Python expression or statement. *)
Inductive outcome (A : Type) : Type :=
| Ok (a : A)
| Raise (e : exn).

Arguments Ok {A} a.
Arguments Raise {A} e.

Definition obind {A B : Type} (x : outcome A) (k : A -> outcome B) : outcome B :=
  match x with
  | Ok a => k a
  | Raise e => Raise e
  end.

(** ** Character auto-selection *)

Definition education_keywords : list string :=
  ["learn"; "study"; "education"; "knowledge"; "science"; "history"; "math";
   "theory"; "research"].

Definition entertainment_keywords : list string :=
  ["joke"; "funny"; "laugh"; "entertain"; "comedy"; "silly"].

Definition adventure_keywords : list string :=
  ["adventure"; "sea"; "pirate"; "treasure"; "sail"; "voyage"].

Definition auto_select_character (user_input : string) : option string :=
  let user_input := Py.lower user_input in
  if Py.any (fun keyword => Py.contains keyword user_input) education_keywords
  then Some "Professor Sage"
  else if Py.any (fun keyword => Py.contains keyword user_input) entertainment_keywords
  then Some "Chuck the Clown"
  else if Py.any (fun keyword => Py.contains keyword user_input) adventure_keywords
  then Some "Sarcastic Pirate"
  else None.

(** ** Session preview *)

(** [x[:30] + "..." if len(x) > 30 else x], for [x] the first turn's
    [user_input]; [len(None)] raises. *)
Definition no_len : exn := TypeError "object of type 'NoneType' has no len()".

Definition preview_of (x : option string) : outcome string :=
  match x with
  | None => Raise no_len
  | Some s =>
      if (30 <? String.length s)%nat
      then Ok (Py.slice_to 30 s ++ "...")
      else Ok s
  end.

(** ** The two tables *)

Module Character.
Record t : Type := Build {
  id : Z;
  name : string;
  description : string;
  prompt_template : string
}.
End Character.

Module Conversation.
Record t : Type := Build {
  id : Z;
  character_id : Z;
  user_input : option string;
  bot_response : string;
  timestamp : Z;
  chat_id : option string;
  user_id : Z
}.
End Conversation.

Record Database : Type := {
  characters : list Character.t;
  conversations : list Conversation.t
}.

(** ** Query combinators *)

Module Query.

Definition chat_id_eq_dec (a b : option string) : {a = b} + {a <> b}.
Proof. decide equality. apply string_dec. Defined.

(** Column comparison [chat_id = :x], rendered [IS NULL] when [x] is
    [None]. *)
Definition same_chat_id (a b : option string) : bool :=
  if chat_id_eq_dec a b then true else false.

(** [.first()]. *)
Definition first {A : Type} (rows : list A) : option A :=
  match rows with
  | [] => None
  | r :: _ => Some r
  end.

(** [.limit(n)]. *)
Definition limit {A : Type} (n : nat) (rows : list A) : list A := firstn n rows.

(** [ORDER BY]: a stable insertion sort, rows with equal keys stay in table
    order. *)
Fixpoint insert_by {A : Type} (le : A -> A -> bool) (x : A) (rows : list A) : list A :=
  match rows with
  | [] => [x]
  | y :: rest => if le x y then x :: rows else y :: insert_by le x rest
  end.

Fixpoint order_by {A : Type} (le : A -> A -> bool) (rows : list A) : list A :=
  match rows with
  | [] => []
  | x :: rest => insert_by le x (order_by le rest)
  end.

Definition asc {A : Type} (key : A -> Z) (x y : A) : bool := (key x <=? key y)%Z.
Definition desc {A : Type} (key : A -> Z) (x y : A) : bool := (key y <=? key x)%Z.

(** [Character.query.filter_by(name=name)]. *)
Definition characters_by_name (name : string) (db : Database) : list Character.t :=
  filter (fun c => String.eqb (Character.name c) name) (characters db).

(** [Conversation.query.filter_by(user_id=user_id, chat_id=chat_id)]. *)
Definition conversations_by_chat (user_id : Z) (chat_id : option string) (db : Database)
  : list Conversation.t :=
  filter (fun c => (Conversation.user_id c =? user_id)%Z
                   && same_chat_id (Conversation.chat_id c) chat_id)
         (conversations db).

(** [Conversation.query.filter_by(user_id=user_id, character_id=character_id)]. *)
Definition conversations_by_character (user_id character_id : Z) (db : Database)
  : list Conversation.t :=
  filter (fun c => (Conversation.user_id c =? user_id)%Z
                   && (Conversation.character_id c =? character_id)%Z)
         (conversations db).

(** The integer primary key given to a new row. *)
Definition next_id (ids : list Z) : Z := (fold_right Z.max 0 ids + 1)%Z.

End Query.

(** ** The remote model *)

Module Json.

Local Set Warnings "-register-all".

Inductive t : Type :=
| JNull
| JBool (b : bool)
| JNum (n : Z)
| JStr (s : string)
| JArr (items : list t)
| JObj (members : list (string * t)).

Definition type_name (j : t) : string :=
  match j with
  | JNull => "NoneType"
  | JBool _ => "bool"
  | JNum _ => "int"
  | JStr _ => "str"
  | JArr _ => "list"
  | JObj _ => "dict"
  end.

Fixpoint lookup (key : string) (members : list (string * t)) : option t :=
  match members with
  | [] => None
  | (k, v) :: rest => if String.eqb k key then Some v else lookup key rest
  end.

Definition is_str (key : string) (j : t) : bool :=
  match j with
  | JStr s => String.eqb s key
  | _ => false
  end.

(** [key in j], for a [str] key. *)
Definition contains (key : string) (j : t) : outcome bool :=
  match j with
  | JObj members =>
      Ok (match lookup key members with Some _ => true | None => false end)
  | JArr items => Ok (existsb (is_str key) items)
  | JStr s => Ok (Py.contains key s)
  | _ => Raise (TypeError ("argument of type '" ++ type_name j ++ "' is not iterable"))
  end.

(** [len(j)]. *)
Definition len (j : t) : outcome nat :=
  match j with
  | JObj members => Ok (List.length members)
  | JArr items => Ok (List.length items)
  | JStr s => Ok (String.length s)
  | _ => Raise (TypeError ("object of type '" ++ type_name j ++ "' has no len()"))
  end.

(** [j[key]], for a [str] key. *)
Definition item (j : t) (key : string) : outcome t :=
  match j with
  | JObj members =>
      match lookup key members with
      | Some v => Ok v
      | None => Raise (KeyError ("'" ++ key ++ "'"))
      end
  | JArr _ => Raise (TypeError "list indices must be integers or slices, not str")
  | JStr _ => Raise (TypeError "string indices must be integers, not 'str'")
  | _ => Raise (TypeError ("'" ++ type_name j ++ "' object is not subscriptable"))
  end.

(** [j[0]]. *)
Definition item0 (j : t) : outcome t :=
  match j with
  | JArr (x :: _) => Ok x
  | JArr [] => Raise (IndexError "list index out of range")
  | JStr (String c _) => Ok (JStr (String c EmptyString))
  | JStr EmptyString => Raise (IndexError "string index out of range")
  | JObj _ => Raise (KeyError "0")
  | _ => Raise (TypeError ("'" ++ type_name j ++ "' object is not subscriptable"))
  end.

End Json.

Module Response.
Record t : Type := Build {
  status_code : Z;
  text : string;
  json : outcome Json.t
}.
End Response.

(** What one call of the program reads from outside. *)
Record World : Type := {
  (** the 128 random bits of [uuid.uuid4()] *)
  uuid4 : N;
  (** [datetime.utcnow()], the column default of [Conversation.timestamp] *)
  utcnow : Z;
  (** [requests.post(gemini_api_url, ..., json=payload)] as a function of the
      prompt placed in the payload *)
  requests_post : string -> outcome Response.t;
  (** what [db.session.commit()] raises, if anything *)
  commit : option exn
}.

(** [str(uuid)]: 32 lower-case hexadecimal digits in groups 8-4-4-4-12. *)
Module Uuid.

Definition hex_digit (d : N) : ascii :=
  match String.get (N.to_nat d) "0123456789abcdef" with
  | Some c => c
  | None => "0"%char
  end.

(** The [k] low hexadecimal digits of [n], most significant first, in front
    of [acc]. *)
Fixpoint hex (k : nat) (n : N) (acc : string) : string :=
  match k with
  | O => acc
  | S k' => hex k' (N.shiftr n 4) (String (hex_digit (N.land n 15)) acc)
  end.

Definition str (n : N) : string :=
  hex 8 (N.shiftr n 96)
    (String "-" (hex 4 (N.shiftr n 80)
    (String "-" (hex 4 (N.shiftr n 64)
    (String "-" (hex 4 (N.shiftr n 48)
    (String "-" (hex 12 n ""))))))))%char.

End Uuid.

(** ** Persona store: [add_character] *)

Notation "x <- c ;; k" := (obind c (fun x => k))
  (at level 61, c at next level, right associativity).

(** [db.session.add(new_character); db.session.commit()]: the row gets the
    next primary key; nothing is kept when the commit raises. *)
Definition insert_character (w : World) (db : Database) (name description prompt_template : string)
  : outcome Database :=
  match commit w with
  | Some e => Raise e
  | None =>
      let new_character :=
        Character.Build (Query.next_id (map Character.id (characters db)))
                        name description prompt_template in
      Ok {| characters := (characters db ++ [new_character])%list;
            conversations := conversations db |}
  end.

(** The value returned together with the database left behind. *)
Definition add_character (w : World) (db : Database) (name description prompt_template : string)
  : string * Database :=
  match Query.first (Query.characters_by_name name db) with
  | Some _ => ("Character '" ++ name ++ "' already exists!", db)
  | None =>
      match insert_character w db name description prompt_template with
      | Ok db' =>
          ("Character '" ++ name ++ "' added successfully!" ++ Py.nl
             ++ "Description: " ++ description, db')
      | Raise e =>
          (* db.session.rollback() *)
          ("An error occurred while adding the character: " ++ str_exn e, db)
      end
  end.

(** [get_existing_characters]. *)
Definition get_existing_characters (db : Database) : list (string * string) :=
  map (fun char => (Character.name char, Character.description char)) (characters db).

(** ** Conversation engine: [chat_with_character] *)

(** One prior turn as it enters the prompt. *)
Definition turn_text (conv : Conversation.t) : string :=
  "User: " ++ Py.fmt (Conversation.user_input conv) ++ Py.nl
    ++ "Bot: " ++ Conversation.bot_response conv.

Definition context_prompt (previous_conversations : list Conversation.t) : string :=
  Py.join " " (map turn_text previous_conversations).

Definition full_prompt (prompt_template : string)
    (previous_conversations : list Conversation.t) (user_input : option string) : string :=
  prompt_template ++ Py.nl ++ context_prompt previous_conversations ++ Py.nl
    ++ "User: " ++ Py.fmt user_input ++ Py.nl ++ "Bot:".

(** The prior turns the prompt is built from, once [chat_id] has gone
    through the minting step. *)
Definition previous_conversations (db : Database) (character : Character.t)
    (user_id : Z) (chat_id : option string) : list Conversation.t :=
  if Py.truthy chat_id
  then Query.order_by (Query.asc Conversation.timestamp)
         (Query.conversations_by_chat user_id chat_id db)
  else rev (Query.limit 10
         (Query.order_by (Query.desc Conversation.timestamp)
            (Query.conversations_by_character user_id (Character.id character) db))).

(** [if not chat_id: chat_id = str(uuid.uuid4())]. *)
Definition mint (w : World) (chat_id : option string) : option string :=
  if negb (Py.truthy chat_id) then Some (Uuid.str (uuid4 w)) else chat_id.

(** ['candidates' in response_data and len(response_data['candidates']) > 0]. *)
Definition has_candidates (response_data : Json.t) : outcome bool :=
  present <- Json.contains "candidates" response_data ;;
  if present
  then candidates <- Json.item response_data "candidates" ;;
       n <- Json.len candidates ;;
       Ok (0 <? n)%nat
  else Ok false.

(** [response_data['candidates'][0]['content']['parts'][0]['text']]. *)
Definition candidate_text (response_data : Json.t) : outcome Json.t :=
  candidates <- Json.item response_data "candidates" ;;
  candidate <- Json.item0 candidates ;;
  content <- Json.item candidate "content" ;;
  parts <- Json.item content "parts" ;;
  part <- Json.item0 parts ;;
  Json.item part "text".

(** What the database makes of the value bound to the NOT NULL text column
    [bot_response] when the row is flushed: a [str] is stored as it is;
    SQLite stores an [int] or a [bool] as the text of the number ([True]
    being 1); [None] violates the constraint, and a [list] or a [dict]
    cannot be bound. *)
Definition stored_text (bot_response : Json.t) : outcome string :=
  match bot_response with
  | Json.JStr reply => Ok reply
  | Json.JNum n => Ok (Py.str_int n)
  | Json.JBool b => Ok (if b then "1" else "0")
  | Json.JNull =>
      Raise (ExternalError "NOT NULL constraint failed: conversation.bot_response")
  | other =>
      Raise (ExternalError ("Error binding parameter: type '" ++ Json.type_name other
                              ++ "' is not supported"))
  end.

(** [db.session.add(conversation); db.session.commit()]. *)
Definition insert_conversation (w : World) (db : Database) (character : Character.t)
    (user_input : option string) (bot_response : Json.t)
    (chat_id : option string) (user_id : Z) : outcome Database :=
  text <- stored_text bot_response ;;
  match commit w with
  | Some e => Raise e
  | None =>
      let conversation :=
        Conversation.Build
          (Query.next_id (map Conversation.id (conversations db)))
          (Character.id character) user_input text (utcnow w) chat_id user_id in
      Ok {| characters := characters db;
            conversations := (conversations db ++ [conversation])%list |}
  end.

(** From [requests.post] to the three [return]s inside the [try].  The
    first component of the returned pair is a Python value: a [str] in the
    two error returns, and whatever the payload holds as the candidate's
    text in the first. *)
Definition generate (w : World) (db : Database) (character : Character.t)
    (user_input : option string) (user_id : Z) (chat_id : option string)
    (prompt : string) : outcome ((Json.t * option string) * Database) :=
  response <- requests_post w prompt ;;
  if (Response.status_code response =? 200)%Z
  then
    response_data <- Response.json response ;;
    found <- has_candidates response_data ;;
    if found
    then
      bot_response <- candidate_text response_data ;;
      db' <- insert_conversation w db character user_input bot_response chat_id user_id ;;
      Ok ((bot_response, chat_id), db')
    else
      Ok ((Json.JStr
             "An error occurred while generating content: Unexpected response format.",
           chat_id), db)
  else
    (* logger.error(f"Error from Gemini API: {response.json()}") *)
    _ <- Response.json response ;;
    Ok ((Json.JStr ("An error occurred while generating content: "
                      ++ Py.str_int (Response.status_code response) ++ " - "
                      ++ Response.text response), chat_id), db).

(** What a call leaves behind: the returned pair, the database, and the
    prompts posted to the remote model. *)
Record Run : Type := {
  returned : Json.t * option string;
  database : Database;
  posted : list string
}.

Definition chat_with_character (w : World) (db : Database) (character_name : string)
    (user_input : option string) (user_id : Z) (chat_id : option string) : Run :=
  match Query.first (Query.characters_by_name character_name db) with
  | None =>
      {| returned := (Json.JStr "Character not found.", None);
         database := db; posted := [] |}
  | Some character =>
      let chat_id := mint w chat_id in
      let previous := previous_conversations db character user_id chat_id in
      let prompt := full_prompt (Character.prompt_template character) previous user_input in
      match generate w db character user_input user_id chat_id prompt with
      | Ok (result, db') =>
          {| returned := result; database := db'; posted := [prompt] |}
      | Raise e =>
          {| returned := (Json.JStr ("An unexpected error occurred: " ++ str_exn e), chat_id);
             database := db; posted := [prompt] |}
      end
  end.

(** [get_chat_messages]. *)
Definition get_chat_messages (db : Database) (chat_id : option string) (user_id : Z)
  : list (option string * string) :=
  map (fun msg => (Conversation.user_input msg, Conversation.bot_response msg))
      (Query.order_by (Query.asc Conversation.timestamp)
         (Query.conversations_by_chat user_id chat_id db)).

(** ** Turn store: [get_chat_history] *)

Module History.

(** A row of [conversation JOIN character]. *)
Definition joined_row : Type := (Conversation.t * Character.t)%type.

(** [conversation JOIN character ON conversation.character_id = character.id]. *)
Definition join (db : Database) : list joined_row :=
  flat_map
    (fun conv =>
       map (pair conv)
           (filter (fun char => (Conversation.character_id conv =? Character.id char)%Z)
                   (characters db)))
    (conversations db).

(** The row of a group that holds [min(timestamp)]; the bare column
    [character.name] is read from it. *)
Definition earlier (best row : joined_row) : joined_row :=
  if (Conversation.timestamp (fst row) <? Conversation.timestamp (fst best))%Z
  then row else best.

Definition min_row (group : list joined_row) : option joined_row :=
  match group with
  | [] => None
  | row :: rest => Some (fold_left earlier rest row)
  end.

(** A row of the grouped query: [(chat_id, name, start_time)]. *)
Definition session_row : Type := (option string * string * Z)%type.

Definition start_time (s : session_row) : Z := snd s.

Definition group_row (rows : list joined_row) (key : option string) : list session_row :=
  match min_row (filter (fun r => Query.same_chat_id (Conversation.chat_id (fst r)) key) rows) with
  | Some (conv, char) => [(key, Character.name char, Conversation.timestamp conv)]
  | None => []
  end.

(** [SELECT chat_id, name, min(timestamp) AS start_time ... WHERE user_id = :u
    GROUP BY chat_id ORDER BY start_time DESC]. *)
Definition chat_sessions (db : Database) (user_id : Z) : list session_row :=
  let rows := filter (fun r => (Conversation.user_id (fst r) =? user_id)%Z) (join db) in
  let keys := nodup Query.chat_id_eq_dec (map (fun r => Conversation.chat_id (fst r)) rows) in
  Query.order_by (Query.desc start_time) (flat_map (group_row rows) keys).

(** [Conversation.query.filter_by(chat_id=chat_id, user_id=user_id)
      .order_by(Conversation.timestamp).first()]. *)
Definition first_message (db : Database) (user_id : Z) (chat_id : option string)
  : option Conversation.t :=
  Query.first (Query.order_by (Query.asc Conversation.timestamp)
                 (Query.conversations_by_chat user_id chat_id db)).

(** [Conversation.query.filter_by(chat_id=chat_id, user_id=user_id).count()]. *)
Definition message_count (db : Database) (user_id : Z) (chat_id : option string) : nat :=
  List.length (Query.conversations_by_chat user_id chat_id db).

(** An element of the returned list:
    [(chat_id, character_name, preview, formatted_date, message_count)]. *)
Definition entry : Type := (option string * string * string * string * nat)%type.

Section Formatting.

(** [start_time.strftime("%Y-%m-%d %H:%M:%S")]. *)
Variable strftime : Z -> string.

(** The body of the [for] loop for one session. *)
Definition session_entry (db : Database) (user_id : Z) (s : session_row)
  : outcome (list entry) :=
  let '(chat_id, character_name, start) := s in
  match first_message db user_id chat_id with
  | Some message =>
      let count := message_count db user_id chat_id in
      let formatted_date := strftime start in
      preview <- preview_of (Conversation.user_input message) ;;
      Ok [(chat_id, character_name, preview, formatted_date, count)]
  | None => Ok []
  end.

Fixpoint history_loop (db : Database) (user_id : Z) (sessions : list session_row)
    (result : list entry) : outcome (list entry) :=
  match sessions with
  | [] => Ok result
  | s :: rest =>
      added <- session_entry db user_id s ;;
      history_loop db user_id rest (result ++ added)%list
  end.

Definition get_chat_history (db : Database) (user_id : Z) : outcome (list entry) :=
  history_loop db user_id (chat_sessions db user_id) [].

End Formatting.

End History.

(** ** Vocabulary of the properties *)

(** [sub] occurs in [s]. *)
Definition Occurs (sub s : string) : Prop :=
  exists pre post, s = pre ++ sub ++ post.

(** Some keyword of the list occurs in the text. *)
Definition Matches (keywords : list string) (text : string) : Prop :=
  exists keyword, In keyword keywords /\ Occurs keyword text.


(** A decoded payload with no candidates: an object without a
    ["candidates"] member, or with an empty list there. *)
Definition no_candidates (payload : Json.t) : Prop :=
  exists members,
    payload = Json.JObj members
    /\ (Json.lookup "candidates" members = None
        \/ Json.lookup "candidates" members = Some (Json.JArr [])).

(** The remote model answered, but not with a generation: a status other
    than 200, or status 200 and a payload with no candidates. *)
Definition gateway_failed (response : Response.t) : Prop :=
  Response.status_code response <> 200%Z
  \/ (Response.status_code response = 200%Z
      /\ exists payload, Response.json response = Ok payload /\ no_candidates payload).

(** The call posted a prompt and the remote model answered [response]. *)
Definition answered (w : World) (run : Run) (response : Response.t) : Prop :=
  exists prompt, In prompt (posted run) /\ requests_post w prompt = Ok response.

(** The prompt as the design document words it: the template, a newline,
    the prior turns each written ["User: {u}\nBot: {b}"] and joined by
    single spaces, then ["\nUser: {new_input}\nBot:"].  A placeholder
    shows a string as it is and [None] as the text "None". *)
Definition placeholder (x : option string) : string :=
  match x with
  | Some text => text
  | None => String "N" (String "o" (String "n" (String "e" EmptyString)))
  end.

Definition line_feed : string := String "010" EmptyString.

Definition spec_turn (turn : Conversation.t) : string :=
  "User: " ++ placeholder (Conversation.user_input turn) ++ line_feed
    ++ "Bot: " ++ Conversation.bot_response turn.

Definition spec_prompt (template : string) (turns : list Conversation.t)
    (new_input : option string) : string :=
  template ++ line_feed
    ++ String.concat " " (map spec_turn turns)
    ++ line_feed ++ "User: " ++ placeholder new_input ++ line_feed ++ "Bot:".

(** The [n] most recent of a list of turns, oldest first. *)
Definition most_recent (n : nat) (turns : list Conversation.t) : list Conversation.t :=
  rev (firstn n (Query.order_by (Query.desc Conversation.timestamp) turns)).

(** Turn [c] belongs to session [chat_id] of user [user_id]. *)
Definition in_session (db : Database) (user_id : Z) (chat_id : option string)
    (c : Conversation.t) : Prop :=
  In c (conversations db)
  /\ Conversation.user_id c = user_id
  /\ Conversation.chat_id c = chat_id.

(** [c] is a turn of the session that none precedes in time. *)
Definition earliest_in_session (db : Database) (user_id : Z) (chat_id : option string)
    (c : Conversation.t) : Prop :=
  in_session db user_id chat_id c
  /\ forall c', in_session db user_id chat_id c' ->
                (Conversation.timestamp c <= Conversation.timestamp c')%Z.

(** The foreign key of the schema: every turn refers to a stored persona. *)
Definition referential_integrity (db : Database) : Prop :=
  forall c, In c (conversations db) ->
            exists char, In char (characters db)
                         /\ Character.id char = Conversation.character_id c.

(** Every session of the user starts with a turn whose [user_input] is not
    [None]. *)
Definition previews_defined (db : Database) (user_id : Z) : Prop :=
  forall chat_id message,
    History.first_message db user_id chat_id = Some message ->
    Conversation.user_input message <> None.

Definition entry_chat_id (e : History.entry) : option string :=
  let '(chat_id, _, _, _, _) := e in chat_id.

(** Entry [e] describes a session that started at [start]: its preview is
    that of an earliest turn, its persona name that of the persona of an
    earliest turn, its date the formatted start, its count the number of
    turns of the session. *)
Definition describes (strftime : Z -> string) (db : Database) (user_id : Z)
    (e : History.entry) (start : Z) : Prop :=
  let '(chat_id, character_name, preview, formatted_date, count) := e in
  exists first_turn named_turn char,
    earliest_in_session db user_id chat_id first_turn
    /\ preview_of (Conversation.user_input first_turn) = Ok preview
    /\ earliest_in_session db user_id chat_id named_turn
    /\ In char (characters db)
    /\ Character.id char = Conversation.character_id named_turn
    /\ character_name = Character.name char
    /\ start = Conversation.timestamp first_turn
    /\ formatted_date = strftime start
    /\ count = List.length
                 (filter (fun c => (Conversation.user_id c =? user_id)%Z
                                   && Query.same_chat_id (Conversation.chat_id c) chat_id)
                         (conversations db)).

Definition row_chat_id (s : History.session_row) : option string := fst (fst s).

(** A row of the grouped query that stands for a session of the user: its
    start is the time of an earliest turn and its name that of the persona
    of that turn. *)
Definition session_of (db : Database) (user_id : Z) (s : History.session_row) : Prop :=
  let '(chat_id, character_name, start) := s in
  exists c char,
    earliest_in_session db user_id chat_id c
    /\ In char (characters db)
    /\ Character.id char = Conversation.character_id c
    /\ character_name = Character.name char
    /\ start = Conversation.timestamp c.

(** Decidable forms of the two conditions on a store. *)
Definition references_ok (db : Database) : bool :=
  forallb (fun c => existsb (fun char => (Character.id char =? Conversation.character_id c)%Z)
                            (characters db))
          (conversations db).

Definition inputs_present (db : Database) : bool :=
  forallb (fun c => match Conversation.user_input c with Some _ => true | None => false end)
          (conversations db).

(** ** Sample stores and worlds *)

Module Sample.

Definition chuck : Character.t :=
  Character.Build 1 "Chuck the Clown"
    "A funny clown who tells jokes and entertains."
    "You are Chuck the Clown, always ready with a joke and entertainment. Be upbeat, silly, and include jokes in your responses.".

Definition pirate : Character.t :=
  Character.Build 2 "Sarcastic Pirate"
    "A pirate with a sharp tongue and a love for treasure."
    "You are a Sarcastic Pirate, ready to share your tales of adventure. Use pirate slang, be witty, sarcastic, and mention your love for treasure and the sea.".

Definition sage : Character.t :=
  Character.Build 3 "Professor Sage"
    "A wise professor knowledgeable about many subjects."
    "You are Professor Sage, sharing wisdom and knowledge. Be scholarly, thoughtful, and provide educational information in your responses.".

(** The store right after [add_predefined_characters]. *)
Definition seeded : Database :=
  {| characters := [chuck; pirate; sage]; conversations := [] |}.

(** Turn number [n] of user 1 with Chuck, written at time [1000 + n] under
    a session identifier of its own. *)
Definition turn (n : nat) : Conversation.t :=
  Conversation.Build (Z.of_nat n) 1
    (Some ("question " ++ Py.str_int (Z.of_nat n)))
    ("answer " ++ Py.str_int (Z.of_nat n))
    (1000 + Z.of_nat n) (Some (Uuid.str (N.of_nat n))) 1.

(** User 1 has had 15 turns with Chuck. *)
Definition fifteen : Database :=
  {| characters := [chuck; pirate; sage]; conversations := map turn (seq 1 15) |}.

Definition generation (reply : string) : Json.t :=
  Json.JObj
    [("candidates",
      Json.JArr
        [Json.JObj
           [("content",
             Json.JObj [("parts", Json.JArr [Json.JObj [("text", Json.JStr reply)]]);
                        ("role", Json.JStr "model")]);
            ("index", Json.JNum 0)]])].

(** The remote model answers every prompt with the same joke. *)
Definition replying : World :=
  {| uuid4 := 99; utcnow := 2000;
     requests_post := fun _ =>
       Ok (Response.Build 200 "" (Ok (generation "Why did the clown cross the road?")));
     commit := None |}.

Definition internal_error : Response.t :=
  Response.Build 500 "Internal Server Error"
    (Ok (Json.JObj [("error", Json.JObj [("code", Json.JNum 500)])])).

(** The remote model answers every prompt with HTTP 500. *)
Definition failing : World :=
  {| uuid4 := 99; utcnow := 2000;
     requests_post := fun _ => Ok internal_error;
     commit := None |}.


(** A store with two sessions of user 1 and one of user 2. *)
Definition chatty : Database :=
  {| characters := [chuck; pirate; sage];
     conversations :=
       [Conversation.Build 1 1 (Some "tell me a joke") "Why did the clown cross the road?"
          1000 (Some "session-a") 1;
        Conversation.Build 2 3
          (Some "Please explain the history of the Roman empire") "Gladly."
          1500 (Some "session-b") 1;
        Conversation.Build 3 1 (Some "another one") "Knock knock." 1700 (Some "session-a") 1;
        Conversation.Build 4 2 (Some "where is the treasure?") "Arr." 1200
          (Some "session-c") 2] |}.

(** A store in which the only turn of user 1 has no [user_input]. *)
Definition greeted : Database :=
  {| characters := [chuck; pirate; sage];
     conversations :=
       [Conversation.Build 1 1 None "Welcome to the circus!" 1000 (Some "session-a") 1] |}.

(** A store in which a later session of user 1 starts without [user_input]. *)
Definition interrupted : Database :=
  {| characters := [chuck; pirate; sage];
     conversations :=
       [Conversation.Build 1 1 (Some "tell me a joke") "Why did the clown cross the road?"
          1000 (Some "session-a") 1;
        Conversation.Build 2 2 None "Ahoy!" 1100 (Some "session-b") 1] |}.

End Sample.

(** ** Persona store: [add_predefined_characters] *)

(** The seed personas, as [(name, description, prompt_template)]. *)
Definition predefined_characters : list (string * string * string) :=
  [("Chuck the Clown",
    "A funny clown who tells jokes and entertains.",
    "You are Chuck the Clown, always ready with a joke and entertainment. Be upbeat, silly, and include jokes in your responses.");
   ("Sarcastic Pirate",
    "A pirate with a sharp tongue and a love for treasure.",
    "You are a Sarcastic Pirate, ready to share your tales of adventure. Use pirate slang, be witty, sarcastic, and mention your love for treasure and the sea.");
   ("Professor Sage",
    "A wise professor knowledgeable about many subjects.",
    "You are Professor Sage, sharing wisdom and knowledge. Be scholarly, thoughtful, and provide educational information in your responses.")].

(** One round of the [for] loop: the persona is added to the session when
    no row, stored or pending, carries its name. *)
Definition stage_character (db : Database) (char_data : string * string * string)
  : Database :=
  let '(name, description, prompt_template) := char_data in
  match Query.first (Query.characters_by_name name db) with
  | Some _ => db
  | None =>
      {| characters :=
           (characters db
              ++ [Character.Build (Query.next_id (map Character.id (characters db)))
                    name description prompt_template])%list;
         conversations := conversations db |}
  end.

(** The loop, then one commit for all pending rows; a commit that raises is
    rolled back and logged. *)
Definition add_predefined_characters (w : World) (db : Database) : Database :=
  let staged := fold_left stage_character predefined_characters db in
  match commit w with
  | None => staged
  | Some _ => db
  end.

(** ** Speech and video input *)

Module Media.

(** What [recognizer.recognize_google] ends in, as far as [speech_to_text]
    tells the cases apart. *)
Inductive recognition : Type :=
| Recognized (text : string)
| UnknownValueError
| RequestError (msg : string).

(** The collaborators: opening, recording and recognising an audio file
    ([Raise] for any exception [speech_to_text] does not catch), and writing
    the audio track of a video to the temporary file.  The file system
    itself is not part of the model. *)
Record t : Type := {
  recognize : string -> outcome recognition;
  write_audiofile : string -> outcome unit
}.

End Media.

Definition speech_to_text (m : Media.t) (audio_file : string) : outcome string :=
  heard <- Media.recognize m audio_file ;;
  match heard with
  | Media.Recognized text => Ok text
  | Media.UnknownValueError => Ok "Could not understand audio"
  | Media.RequestError msg => Ok ("Error: " ++ msg)
  end.

Definition extract_audio_from_video (m : Media.t) (video_file : string) : option string :=
  let audio_file_path := "temp_audio.wav" in
  match Media.write_audiofile m video_file with
  | Ok _ => Some audio_file_path
  | Raise _ => None
  end.

Definition process_video (m : Media.t) (video_file : string) : outcome string :=
  match extract_audio_from_video m video_file with
  | Some audio_file =>
      if Py.truthy (Some audio_file)
      then text <- speech_to_text m audio_file ;;
           (* os.remove(audio_file), errors ignored *)
           Ok text
      else Ok "Failed to process video"
  | None => Ok "Failed to process video"
  end.

(** The callback of the audio widget: the new content of the message box. *)
Definition transcribe_audio (m : Media.t) (audio_file : option string) (text_input : string)
  : outcome string :=
  match audio_file with
  | None => Ok text_input
  | Some file =>
      transcribed_text <- speech_to_text m file ;;
      if Py.truthy (Some transcribed_text)
         && negb (String.eqb transcribed_text "Could not understand audio")
      then Ok transcribed_text
      else Ok text_input
  end.

(** The callback of the video widget. *)
Definition transcribe_video (m : Media.t) (video_file : option string) (text_input : string)
  : outcome string :=
  match video_file with
  | None => Ok text_input
  | Some file =>
      transcribed_text <- process_video m file ;;
      if Py.truthy (Some transcribed_text)
         && negb (String.eqb transcribed_text "Failed to process video")
      then Ok transcribed_text
      else Ok text_input
  end.

(** ** Callbacks of the chat and history tabs *)

(** The "Auto Select Character" button: the new value of the dropdown. *)
Definition auto_select (character_name : option string) (user_input : string)
  : option string :=
  let selected_character := auto_select_character user_input in
  if Py.truthy selected_character then selected_character else character_name.

Definition indent20 : string := "                    ".
Definition indent24 : string := "                        ".

(** The f-string appended for one history entry. *)
Definition history_card (e : History.entry) : string :=
  let '(chat_id, character, preview, date, msg_count) := e in
  Py.nl ++ indent20 ++ "<div class='chat-history-card' data-chat-id='"
    ++ Py.fmt chat_id ++ "'>" ++ Py.nl
    ++ indent24 ++ "<div class='chat-history-badge'>"
    ++ Py.str_int (Z.of_nat msg_count) ++ " messages</div>" ++ Py.nl
    ++ indent24 ++ "<h3>" ++ character ++ "</h3>" ++ Py.nl
    ++ indent24 ++ "<p><strong>Started:</strong> " ++ date ++ "</p>" ++ Py.nl
    ++ indent24 ++ "<p><strong>First message:</strong> " ++ preview ++ "</p>" ++ Py.nl
    ++ indent20 ++ "</div>" ++ Py.nl
    ++ indent20 ++ "<button style='display:none;' data-chat-id='" ++ Py.fmt chat_id
    ++ "' id='load-chat-" ++ Py.fmt chat_id ++ "'></button>" ++ Py.nl
    ++ indent20.

Definition format_chat_history (history_data : list History.entry) : string :=
  match history_data with
  | [] => "<div class='empty-history'>No chat history available.</div>"
  | _ =>
      let html := "<div class='chat-history-container'>" in
      let html := fold_left (fun html e => html ++ history_card e) history_data html in
      html ++ "</div>"
  end.

(** ** Vocabulary of the further properties *)

(** The payload of a generation: [candidates[0].content.parts[0].text] is
    there and is the string [reply]. *)
Definition carries (payload : Json.t) (reply : string) : Prop :=
  exists members candidate others content part more,
    payload = Json.JObj members
    /\ Json.lookup "candidates" members
       = Some (Json.JArr (Json.JObj candidate :: others))
    /\ Json.lookup "content" candidate = Some (Json.JObj content)
    /\ Json.lookup "parts" content = Some (Json.JArr (Json.JObj part :: more))
    /\ Json.lookup "text" part = Some (Json.JStr reply).

(** The turn a call writes for a reply. *)
Definition written_turn (w : World) (db : Database) (character : Character.t)
    (user_input : option string) (reply : string) (user_id : Z)
    (chat_id : option string) : Conversation.t :=
  Conversation.Build (Query.next_id (map Conversation.id (conversations db)))
    (Character.id character) user_input reply (utcnow w) (mint w chat_id) user_id.

(** A persona of that name is stored. *)
Definition known (db : Database) (name : string) : Prop :=
  exists c, In c (characters db) /\ Character.name c = name.

Definition entry_count (e : History.entry) : nat :=
  let '(_, _, _, _, msg_count) := e in msg_count.

Definition entry_preview (e : History.entry) : string :=
  let '(_, _, preview, _, _) := e in preview.

Definition entry_name (e : History.entry) : string :=
  let '(_, character, _, _, _) := e in character.

Definition entry_date (e : History.entry) : string :=
  let '(_, _, _, date, _) := e in date.

(** Further sample collaborators. *)
Module SampleMedia.

(** The recognition service cannot be reached; videos have an audio track. *)
Definition offline : Media.t :=
  {| Media.recognize := fun _ => Ok (Media.RequestError "recognition connection failed");
     Media.write_audiofile := fun _ => Ok tt |}.

(** Nothing intelligible is said; videos have an audio track. *)
Definition mumbling : Media.t :=
  {| Media.recognize := fun _ => Ok Media.UnknownValueError;
     Media.write_audiofile := fun _ => Ok tt |}.

(** Speech is recognised; videos have no audio track. *)
Definition silent_film : Media.t :=
  {| Media.recognize := fun _ => Ok (Media.Recognized "tell me a joke");
     Media.write_audiofile := fun _ => Raise (ExternalError "'NoneType' object has no attribute 'write_audiofile'") |}.

Definition clear : Media.t :=
  {| Media.recognize := fun _ => Ok (Media.Recognized "tell me a joke");
     Media.write_audiofile := fun _ => Ok tt |}.

End SampleMedia.

(** Further sample worlds. *)
Module Scenario.

(** The remote model replies, but the database refuses the commit. *)
Definition read_only : World :=
  {| uuid4 := 99; utcnow := 2000;
     requests_post := requests_post Sample.replying;
     commit := Some (ExternalError "attempt to write a readonly database") |}.

(** The remote model answers 200 with a candidate that has no content. *)
Definition blocked : World :=
  {| uuid4 := 99; utcnow := 2000;
     requests_post := fun _ =>
       Ok (Response.Build 200 ""
             (Ok (Json.JObj
                    [("candidates",
                      Json.JArr [Json.JObj [("finishReason", Json.JStr "SAFETY")]])])));
     commit := None |}.

Definition bad_gateway : Response.t :=
  Response.Build 502 "<html>Bad Gateway</html>"
    (Raise (ExternalError "Expecting value: line 1 column 1 (char 0)")).

(** A proxy answers 502 with an HTML page. *)
Definition proxied : World :=
  {| uuid4 := 99; utcnow := 2000;
     requests_post := fun _ => Ok bad_gateway;
     commit := None |}.

(** A later call, with another random identifier and a later clock. *)
Definition later : World :=
  {| uuid4 := 100; utcnow := 3000;
     requests_post := requests_post Sample.replying;
     commit := None |}.

(** The remote model answers with a candidate whose text is the number 5. *)
Definition numeric : World :=
  {| uuid4 := 99; utcnow := 2000;
     requests_post := fun _ =>
       Ok (Response.Build 200 ""
             (Ok (Json.JObj
                    [("candidates",
                      Json.JArr
                        [Json.JObj
                           [("content",
                             Json.JObj
                               [("parts", Json.JArr [Json.JObj [("text", Json.JNum 5)]])])]])])));
     commit := None |}.

(** A store that holds one of the seed personas and a persona of its own,
    and a turn with the latter. *)
Definition half_seeded : Database :=
  {| characters :=
       [Character.Build 1 "Captain Nemo" "A submarine captain." "You are Captain Nemo.";
        Sample.pirate];
     conversations :=
       [Conversation.Build 1 1 (Some "dive!") "Aye." 900 (Some "session-n") 4] |}.

End Scenario.
(** * Properties *)

(** ** Strings *)

Section StringFacts.

Lemma startswith_spec (p s : string) :
  Py.startswith p s = true <-> exists post, s = p ++ post.
Proof.
  revert s; induction p as [|a p IH]; intros s; simpl.
  - split; [intros _; now exists s | reflexivity].
  - destruct s as [|b s].
    + split; [discriminate | intros [post H]; discriminate].
    + rewrite andb_true_iff, Ascii.eqb_eq, IH. split.
      * intros [-> [post ->]]. now exists post.
      * intros [post H]. injection H as -> ->. split; [reflexivity | now exists post].
Qed.

Lemma contains_spec (sub s : string) :
  Py.contains sub s = true <-> Occurs sub s.
Proof.
  unfold Occurs. induction s as [|c s IH].
  - cbn [Py.contains]. rewrite orb_false_r, startswith_spec. split.
    + intros [post H]. now exists "", post.
    + intros [pre [post H]]. destruct pre; [|discriminate]. now exists post.
  - cbn [Py.contains]. rewrite orb_true_iff, startswith_spec, IH. split.
    + intros [[post H] | [pre [post H]]].
      * now exists "", post.
      * exists (String c pre), post. simpl. now rewrite H.
    + intros [pre [post H]]. destruct pre as [|c' pre].
      * left. now exists post.
      * right. simpl in H. injection H as _ H. now exists pre, post.
Qed.

Lemma any_contains_spec (keywords : list string) (text : string) :
  Py.any (fun keyword => Py.contains keyword text) keywords = true
  <-> Matches keywords text.
Proof.
  unfold Py.any, Matches. rewrite existsb_exists.
  split; intros [k [Hin H]]; exists k; (split; [exact Hin|]); now apply contains_spec.
Qed.

Lemma any_contains_false (keywords : list string) (text : string) :
  Py.any (fun keyword => Py.contains keyword text) keywords = false
  <-> ~ Matches keywords text.
Proof.
  rewrite <- any_contains_spec.
  destruct (Py.any _ keywords); split; intros H; try reflexivity; try discriminate.
  now elim H.
Qed.


Lemma join_concat (sep : string) (parts : list string) :
  Py.join sep parts = String.concat sep parts.
Proof.
  induction parts as [|p rest IH]; [reflexivity|].
  destruct rest as [|q rest]; [reflexivity|].
  change (p ++ sep ++ Py.join sep (q :: rest)
          = p ++ sep ++ String.concat sep (q :: rest)).
  now rewrite IH.
Qed.

End StringFacts.

(** C7.  [auto_select_character] lower-cases the input and looks for the
    keywords of the three fixed lists in it, education first, then
    entertainment, then adventure: it returns "Professor Sage" when an
    education keyword occurs, otherwise "Chuck the Clown" when an
    entertainment keyword occurs, otherwise "Sarcastic Pirate" when an
    adventure keyword occurs, and [None] when none does.  Being a total
    function of the input string alone, it has no other outcome. *)
Theorem auto_select_character_priority (user_input : string) :
  let text := Py.lower user_input in
  (Matches education_keywords text ->
     auto_select_character user_input = Some "Professor Sage")
  /\ (~ Matches education_keywords text ->
      Matches entertainment_keywords text ->
      auto_select_character user_input = Some "Chuck the Clown")
  /\ (~ Matches education_keywords text ->
      ~ Matches entertainment_keywords text ->
      Matches adventure_keywords text ->
      auto_select_character user_input = Some "Sarcastic Pirate")
  /\ (~ Matches education_keywords text ->
      ~ Matches entertainment_keywords text ->
      ~ Matches adventure_keywords text ->
      auto_select_character user_input = None).
Proof.
  intros text. unfold auto_select_character. fold text.
  repeat split.
  - intros H. apply any_contains_spec in H. now rewrite H.
  - intros H1 H2. apply any_contains_false in H1. apply any_contains_spec in H2.
    now rewrite H1, H2.
  - intros H1 H2 H3. apply any_contains_false in H1, H2. apply any_contains_spec in H3.
    now rewrite H1, H2, H3.
  - intros H1 H2 H3. apply any_contains_false in H1, H2, H3.
    now rewrite H1, H2, H3.
Qed.

Lemma auto_select_character_priority_witness :
  auto_select_character "Study the history of SCIENCE" = Some "Professor Sage"
  /\ auto_select_character "A funny STUDY of pirates" = Some "Professor Sage"
  /\ auto_select_character "Tell me a JOKE about the sea" = Some "Chuck the Clown"
  /\ auto_select_character "Let us SAIL" = Some "Sarcastic Pirate"
  /\ auto_select_character "Hello there" = None.
Proof.
  split; [|split; [|split; [|split]]].
  - apply (proj1 (auto_select_character_priority "Study the history of SCIENCE")).
    apply any_contains_spec. vm_compute. reflexivity.
  - apply (proj1 (auto_select_character_priority "A funny STUDY of pirates")).
    apply any_contains_spec. vm_compute. reflexivity.
  - apply (proj1 (proj2 (auto_select_character_priority "Tell me a JOKE about the sea"))).
    + apply any_contains_false. vm_compute. reflexivity.
    + apply any_contains_spec. vm_compute. reflexivity.
  - apply (proj1 (proj2 (proj2 (auto_select_character_priority "Let us SAIL")))).
    + apply any_contains_false. vm_compute. reflexivity.
    + apply any_contains_false. vm_compute. reflexivity.
    + apply any_contains_spec. vm_compute. reflexivity.
  - apply (proj2 (proj2 (proj2 (auto_select_character_priority "Hello there")))).
    + apply any_contains_false. vm_compute. reflexivity.
    + apply any_contains_false. vm_compute. reflexivity.
    + apply any_contains_false. vm_compute. reflexivity.
Defined.



(** ** Sample runs *)

(** A first message to Chuck: the reply of the remote model comes back with
    a fresh session identifier and exactly one turn is stored under it. *)
Example first_exchange :
  returned (chat_with_character Sample.replying Sample.seeded "Chuck the Clown"
              (Some "tell me a joke") 1 None)
  = (Json.JStr "Why did the clown cross the road?",
     Some "00000000-0000-0000-0000-000000000063")
  /\ conversations
       (database (chat_with_character Sample.replying Sample.seeded "Chuck the Clown"
                    (Some "tell me a joke") 1 None))
     = [Conversation.Build 1 1 (Some "tell me a joke") "Why did the clown cross the road?"
          2000 (Some "00000000-0000-0000-0000-000000000063") 1].
Proof. split; vm_compute; reflexivity. Qed.

(** A session passed back is replayed in full, oldest turn first. *)
Example session_replay :
  previous_conversations Sample.chatty Sample.chuck 1 (Some "session-a")
  = [Conversation.Build 1 1 (Some "tell me a joke") "Why did the clown cross the road?"
       1000 (Some "session-a") 1;
     Conversation.Build 3 1 (Some "another one") "Knock knock." 1700 (Some "session-a") 1].
Proof. vm_compute. reflexivity. Qed.

(** The history of user 1: the later session first, its long opening
    message cut to 30 characters. *)
Example history_of_user_1 :
  History.get_chat_history Py.str_int Sample.chatty 1
  = Ok [(Some "session-b", "Professor Sage", "Please explain the history of ...",
         "1500", 1%nat);
        (Some "session-a", "Chuck the Clown", "tell me a joke", "1000", 2%nat)].
Proof. vm_compute. reflexivity. Qed.

(** ** Persona lookup *)

Section Lookup.

Variable db : Database.
Variable name : string.

Lemma lookup_absent :
  (forall c, In c (characters db) -> Character.name c <> name) ->
  Query.first (Query.characters_by_name name db) = None.
Proof.
  unfold Query.characters_by_name. intros H.
  induction (characters db) as [|c rest IH]; [reflexivity|].
  simpl. destruct (String.eqb_spec (Character.name c) name) as [E|E].
  - exfalso. apply (H c); [now left | exact E].
  - apply IH. intros c' Hc'. apply H. now right.
Qed.

Lemma lookup_found (character : Character.t) :
  Query.first (Query.characters_by_name name db) = Some character ->
  In character (characters db) /\ Character.name character = name.
Proof.
  unfold Query.characters_by_name. intros H.
  assert (Hin : In character
                  (filter (fun c => String.eqb (Character.name c) name) (characters db))).
  { destruct (filter _ (characters db)); [discriminate|].
    injection H as ->. now left. }
  apply filter_In in Hin. destruct Hin as [Hin E].
  split; [exact Hin | now apply String.eqb_eq].
Qed.

Lemma lookup_present :
  (exists c, In c (characters db) /\ Character.name c = name) ->
  exists character, Query.first (Query.characters_by_name name db) = Some character.
Proof.
  intros [c [Hin E]].
  destruct (Query.first (Query.characters_by_name name db)) as [character|] eqn:F.
  - now exists character.
  - exfalso. unfold Query.characters_by_name in F.
    assert (Hf : In c (filter (fun c => String.eqb (Character.name c) name) (characters db))).
    { apply filter_In. split; [exact Hin | now apply String.eqb_eq]. }
    destruct (filter _ (characters db)); [exact Hf | discriminate].
Qed.

End Lookup.

(** ** Session identifiers *)

Lemma hex_cons (k : nat) (n : N) (a : ascii) (acc : string) :
  exists c rest, Uuid.hex k n (String a acc) = String c rest.
Proof.
  revert n a acc. induction k as [|k IH]; intros n a acc; simpl.
  - now exists a, acc.
  - apply IH.
Qed.

Lemma uuid_truthy (n : N) : Py.truthy (Some (Uuid.str n)) = true.
Proof.
  unfold Uuid.str.
  destruct (hex_cons 8 (N.shiftr n 96) "-"%char
              (Uuid.hex 4 (N.shiftr n 80)
                 (String "-"
                    (Uuid.hex 4 (N.shiftr n 64)
                       (String "-"
                          (Uuid.hex 4 (N.shiftr n 48) (String "-" (Uuid.hex 12 n ""))))))))
    as [c [rest ->]].
  reflexivity.
Qed.

Lemma mint_truthy (w : World) (chat_id : option string) :
  Py.truthy (mint w chat_id) = true.
Proof.
  unfold mint. destruct (Py.truthy chat_id) eqn:T; cbn [negb].
  - exact T.
  - apply uuid_truthy.
Qed.

Lemma mint_supplied (w : World) (chat_id : option string) :
  Py.truthy chat_id = true -> mint w chat_id = chat_id.
Proof. unfold mint. now intros ->. Qed.

Lemma mint_absent (w : World) (chat_id : option string) :
  Py.truthy chat_id = false -> mint w chat_id = Some (Uuid.str (uuid4 w)).
Proof. unfold mint. now intros ->. Qed.

Lemma truthy_nonempty (s : string) : s <> "" <-> Py.truthy (Some s) = true.
Proof.
  destruct s; simpl; split; intros H; try reflexivity; try discriminate.
  now elim H.
Qed.

(** The branch taken for the context is always the per-session one: the
    identifier has gone through [mint] before it is tested. *)
Lemma previous_conversations_minted (w : World) (db : Database)
    (character : Character.t) (user_id : Z) (chat_id : option string) :
  previous_conversations db character user_id (mint w chat_id)
  = Query.order_by (Query.asc Conversation.timestamp)
      (Query.conversations_by_chat user_id (mint w chat_id) db).
Proof. unfold previous_conversations. now rewrite mint_truthy. Qed.

(** ** The engine, case by case *)

Section Engine.

Variable w : World.
Variable db : Database.
Variable character_name : string.
Variable user_input : option string.
Variable user_id : Z.
Variable chat_id : option string.

Let run : Run := chat_with_character w db character_name user_input user_id chat_id.

Lemma chat_not_found :
  Query.first (Query.characters_by_name character_name db) = None ->
  run = {| returned := (Json.JStr "Character not found.", None); database := db; posted := [] |}.
Proof. unfold run, chat_with_character. now intros ->. Qed.

Section Found.

Variable character : Character.t.
Hypothesis found :
  Query.first (Query.characters_by_name character_name db) = Some character.

Let prompt : string :=
  full_prompt (Character.prompt_template character)
    (previous_conversations db character user_id (mint w chat_id)) user_input.

Lemma chat_posted : posted run = [prompt].
Proof.
  unfold run, chat_with_character. rewrite found. cbv zeta. fold prompt.
  destruct (generate w db character user_input user_id (mint w chat_id) prompt)
    as [[result db']|e]; reflexivity.
Qed.

Lemma chat_raised (e : exn) :
  generate w db character user_input user_id (mint w chat_id) prompt = Raise e ->
  run = {| returned := (Json.JStr ("An unexpected error occurred: " ++ str_exn e), mint w chat_id);
           database := db; posted := [prompt] |}.
Proof.
  intros H. unfold run, chat_with_character. rewrite found. cbv zeta. fold prompt.
  now rewrite H.
Qed.

Lemma chat_returned (result : Json.t * option string) (db' : Database) :
  generate w db character user_input user_id (mint w chat_id) prompt = Ok (result, db') ->
  run = {| returned := result; database := db'; posted := [prompt] |}.
Proof.
  intros H. unfold run, chat_with_character. rewrite found. cbv zeta. fold prompt.
  now rewrite H.
Qed.

End Found.

End Engine.

(** ** What the remote model's failures turn into *)

Lemma error_in_generation (detail : string) :
  Occurs "error" ("An error occurred while generating content: " ++ detail).
Proof. now exists "An ", (" occurred while generating content: " ++ detail). Qed.

Lemma error_in_unexpected (detail : string) :
  Occurs "error" ("An unexpected error occurred: " ++ detail).
Proof. now exists "An unexpected ", (" occurred: " ++ detail). Qed.

Lemma has_candidates_none (payload : Json.t) :
  no_candidates payload -> has_candidates payload = Ok false.
Proof.
  intros [members [-> [H|H]]]; unfold has_candidates; simpl; rewrite H; reflexivity.
Qed.

Section Generate.

Variable w : World.
Variable db : Database.
Variable character : Character.t.
Variable user_input : option string.
Variable user_id : Z.
Variable chat_id : option string.
Variable prompt : string.

(** A failed answer yields an error text or an exception, and in both cases
    the database the call started from. *)
Lemma generate_failed (response : Response.t) :
  requests_post w prompt = Ok response ->
  gateway_failed response ->
  (exists detail,
     generate w db character user_input user_id chat_id prompt
     = Ok ((Json.JStr ("An error occurred while generating content: " ++ detail),
            chat_id), db))
  \/ (exists e, generate w db character user_input user_id chat_id prompt = Raise e).
Proof.
  intros Hpost Hfail. unfold generate. rewrite Hpost. cbn [obind].
  destruct Hfail as [Hstatus | [Hstatus [payload [Hjson Hnone]]]].
  - apply Z.eqb_neq in Hstatus. rewrite Hstatus.
    destruct (Response.json response) as [j|e]; cbn [obind].
    + left. eexists. reflexivity.
    + right. now exists e.
  - rewrite Hstatus, Hjson. cbn [obind Z.eqb Pos.eqb].
    rewrite (has_candidates_none _ Hnone). cbn [obind].
    left. now exists "Unexpected response format.".
Qed.

End Generate.

(** ** The store after a call *)

Lemma next_id_above (ids : list Z) (i : Z) : In i ids -> (i < Query.next_id ids)%Z.
Proof.
  unfold Query.next_id. induction ids as [|j ids IH]; intros H; [destruct H|].
  cbn [fold_right]. destruct H as [->|H]; [lia|]. specialize (IH H). lia.
Qed.

Lemma next_id_fresh (ids : list Z) : ~ In (Query.next_id ids) ids.
Proof. intros H. apply next_id_above in H. lia. Qed.

Lemma candidate_text_carried (payload : Json.t) (reply : string) :
  carries payload reply ->
  has_candidates payload = Ok true /\ candidate_text payload = Ok (Json.JStr reply).
Proof.
  intros [members [candidate [others [content [part [more [-> [H1 [H2 [H3 H4]]]]]]]]]].
  unfold has_candidates, candidate_text. cbn. rewrite H1. cbn. rewrite H2. cbn.
  rewrite H3. cbn. rewrite H4. split; reflexivity.
Qed.

Section Effects.

Variable w : World.
Variable db : Database.
Variable character : Character.t.
Variable user_input : option string.
Variable user_id : Z.
Variable chat_id : option string.
Variable prompt : string.

(** [generate] either leaves the database alone and returns a text, or
    stores the turn of the value it returns. *)
Lemma generate_effect (result : Json.t * option string) (db' : Database) :
  generate w db character user_input user_id (mint w chat_id) prompt = Ok (result, db') ->
  snd result = mint w chat_id
  /\ ((db' = db /\ exists text, fst result = Json.JStr text)
      \/ (exists text,
            stored_text (fst result) = Ok text
            /\ db' = {| characters := characters db;
                        conversations :=
                          (conversations db
                             ++ [written_turn w db character user_input text
                                   user_id chat_id])%list |})).
Proof.
  unfold generate.
  destruct (requests_post w prompt) as [response|e]; cbn [obind]; [|discriminate].
  destruct (Response.status_code response =? 200)%Z.
  - destruct (Response.json response) as [payload|e]; cbn [obind]; [|discriminate].
    destruct (has_candidates payload) as [[|]|e]; cbn [obind]; try discriminate.
    + destruct (candidate_text payload) as [reply|e]; cbn [obind]; [|discriminate].
      unfold insert_conversation.
      destruct (stored_text reply) as [text|e] eqn:T; cbn [obind]; [|discriminate].
      destruct (commit w); cbn [obind]; [discriminate|].
      intros H. injection H as <- <-. cbn [fst snd]. split; [reflexivity|].
      right. exists text. now split.
    + intros H. injection H as <- <-. split; [reflexivity|].
      left. split; [reflexivity|]. cbn [fst]. now eexists.
  - destruct (Response.json response) as [payload|e]; cbn [obind]; [|discriminate].
    intros H. injection H as <- <-. split; [reflexivity|].
    left. split; [reflexivity|]. cbn [fst]. now eexists.
Qed.

Lemma generate_success (response : Response.t) (payload : Json.t) (reply : string) :
  requests_post w prompt = Ok response ->
  Response.status_code response = 200%Z ->
  Response.json response = Ok payload ->
  carries payload reply ->
  commit w = None ->
  generate w db character user_input user_id (mint w chat_id) prompt
  = Ok ((Json.JStr reply, mint w chat_id),
        {| characters := characters db;
           conversations :=
             (conversations db
                ++ [written_turn w db character user_input reply user_id chat_id])%list |}).
Proof.
  intros Hpost Hstatus Hjson Hcarries Hcommit.
  destruct (candidate_text_carried _ _ Hcarries) as [Hhas Htext].
  unfold generate. rewrite Hpost. cbn [obind]. rewrite Hstatus, Hjson. cbn [obind Z.eqb Pos.eqb].
  rewrite Hhas. cbn [obind]. rewrite Htext. cbn [obind].
  unfold insert_conversation. cbn [stored_text obind]. rewrite Hcommit. reflexivity.
Qed.

Lemma generate_commit_refused (response : Response.t) (payload : Json.t) (reply : string)
    (e : exn) :
  requests_post w prompt = Ok response ->
  Response.status_code response = 200%Z ->
  Response.json response = Ok payload ->
  carries payload reply ->
  commit w = Some e ->
  generate w db character user_input user_id (mint w chat_id) prompt = Raise e.
Proof.
  intros Hpost Hstatus Hjson Hcarries Hcommit.
  destruct (candidate_text_carried _ _ Hcarries) as [Hhas Htext].
  unfold generate. rewrite Hpost. cbn [obind]. rewrite Hstatus, Hjson. cbn [obind Z.eqb Pos.eqb].
  rewrite Hhas. cbn [obind]. rewrite Htext. cbn [obind].
  unfold insert_conversation. cbn [stored_text obind]. rewrite Hcommit. reflexivity.
Qed.

End Effects.

(** Every call ends in one of three ways: the persona is unknown; the
    persona is known, nothing is written and a text is returned; the persona
    is known and the turn of the returned value is appended. *)
Lemma chat_outcomes (w : World) (db : Database) (character_name : string)
    (user_input : option string) (user_id : Z) (chat_id : option string) :
  (Query.first (Query.characters_by_name character_name db) = None
   /\ chat_with_character w db character_name user_input user_id chat_id
      = {| returned := (Json.JStr "Character not found.", None);
           database := db; posted := [] |})
  \/ (exists character,
        Query.first (Query.characters_by_name character_name db) = Some character
        /\ snd (returned (chat_with_character w db character_name user_input user_id chat_id))
           = mint w chat_id
        /\ ((database (chat_with_character w db character_name user_input user_id chat_id)
             = db
             /\ exists text,
                  fst (returned (chat_with_character w db character_name user_input
                                   user_id chat_id)) = Json.JStr text)
            \/ (exists text,
                  stored_text
                    (fst (returned (chat_with_character w db character_name user_input
                                      user_id chat_id))) = Ok text
                  /\ database (chat_with_character w db character_name user_input
                                 user_id chat_id)
                     = {| characters := characters db;
                          conversations :=
                            (conversations db
                               ++ [written_turn w db character user_input text
                                     user_id chat_id])%list |}))).
Proof.
  destruct (Query.first (Query.characters_by_name character_name db)) as [character|] eqn:F.
  - right. exists character. split; [reflexivity|].
    destruct (generate w db character user_input user_id (mint w chat_id)
                (full_prompt (Character.prompt_template character)
                   (previous_conversations db character user_id (mint w chat_id))
                   user_input)) as [[result db']|e] eqn:G.
    + rewrite (chat_returned _ _ _ _ _ _ character F _ _ G). cbn [returned database].
      exact (generate_effect _ _ _ _ _ _ _ _ _ G).
    + rewrite (chat_raised _ _ _ _ _ _ character F _ G). cbn [returned database fst snd].
      split; [reflexivity|]. left. split; [reflexivity | now eexists].
  - left. split; [reflexivity|]. now apply chat_not_found.
Qed.

(** C4.  For a persona name that no row of the persona store carries,
    [chat_with_character] returns "Character not found." with no session
    identifier, posts nothing to the remote model and leaves the database,
    hence the turn store, exactly as it was. *)
Theorem unknown_persona_not_found (w : World) (db : Database) (character_name : string)
    (user_input : option string) (user_id : Z) (chat_id : option string) :
  (forall c, In c (characters db) -> Character.name c <> character_name) ->
  returned (chat_with_character w db character_name user_input user_id chat_id)
  = (Json.JStr "Character not found.", None)
  /\ database (chat_with_character w db character_name user_input user_id chat_id) = db
  /\ posted (chat_with_character w db character_name user_input user_id chat_id) = [].
Proof.
  intros H. rewrite chat_not_found by now apply lookup_absent.
  now repeat split.
Qed.

Lemma unknown_persona_not_found_witness :
  returned (chat_with_character Sample.replying Sample.fifteen "Captain Nemo"
              (Some "hello") 1 (Some "session-1"))
  = (Json.JStr "Character not found.", None)
  /\ database (chat_with_character Sample.replying Sample.fifteen "Captain Nemo"
                 (Some "hello") 1 (Some "session-1")) = Sample.fifteen
  /\ posted (chat_with_character Sample.replying Sample.fifteen "Captain Nemo"
               (Some "hello") 1 (Some "session-1")) = [].
Proof.
  apply (unknown_persona_not_found Sample.replying Sample.fifteen "Captain Nemo").
  intros c [<-|[<-|[<-|[]]]]; simpl; discriminate.
Defined.

(** C5.  The prompt is the persona's template, a newline, the prior turns
    written "User: {u}\nBot: {b}" in order and joined by single spaces, then
    "\nUser: {new_input}\nBot:"; and this is the one text a call with a known
    persona posts to the remote model, built from the turns selected for the
    call. *)
Theorem prompt_layout :
  (forall template turns new_input,
     full_prompt template turns new_input = spec_prompt template turns new_input)
  /\ (forall w db character_name user_input user_id chat_id character,
        Query.first (Query.characters_by_name character_name db) = Some character ->
        posted (chat_with_character w db character_name user_input user_id chat_id)
        = [spec_prompt (Character.prompt_template character)
             (previous_conversations db character user_id (mint w chat_id))
             user_input]).
Proof.
  assert (E : forall template turns new_input,
             full_prompt template turns new_input = spec_prompt template turns new_input).
  { intros. unfold full_prompt, spec_prompt, context_prompt.
    now rewrite join_concat. }
  split; [exact E|].
  intros. rewrite (chat_posted _ _ _ _ _ _ character) by assumption.
  now rewrite E.
Qed.

Lemma prompt_layout_witness :
  posted (chat_with_character Sample.replying Sample.chatty "Chuck the Clown"
            (Some "one more") 1 (Some "session-a"))
  = ["You are Chuck the Clown, always ready with a joke and entertainment. Be upbeat, silly, and include jokes in your responses.
User: tell me a joke
Bot: Why did the clown cross the road? User: another one
Bot: Knock knock.
User: one more
Bot:"]
  /\ posted (chat_with_character Sample.replying Sample.interrupted "Sarcastic Pirate"
               None 1 (Some "session-b"))
     = ["You are a Sarcastic Pirate, ready to share your tales of adventure. Use pirate slang, be witty, sarcastic, and mention your love for treasure and the sea.
User: None
Bot: Ahoy!
User: None
Bot:"].
Proof.
  split.
  - rewrite (proj2 prompt_layout Sample.replying Sample.chatty "Chuck the Clown"
               (Some "one more") 1%Z (Some "session-a") Sample.chuck eq_refl).
    vm_compute. reflexivity.
  - rewrite (proj2 prompt_layout Sample.replying Sample.interrupted "Sarcastic Pirate"
               None 1%Z (Some "session-b") Sample.pirate eq_refl).
    vm_compute. reflexivity.
Defined.

(** C2, as the code has it.  When the caller passes a non-empty session
    identifier, the call posts a prompt, and the remote model answers with a
    status other than 200 or with a 200 payload that has no candidates, the
    call returns a text containing "error" paired with that same identifier,
    and the database is left as it was: no turn is written. *)
Theorem gateway_failure_keeps_session (w : World) (db : Database) (character_name : string)
    (user_input : option string) (user_id : Z) (session_id : string)
    (response : Response.t) :
  session_id <> "" ->
  answered w (chat_with_character w db character_name user_input user_id (Some session_id))
           response ->
  gateway_failed response ->
  exists text,
    returned (chat_with_character w db character_name user_input user_id (Some session_id))
    = (Json.JStr text, Some session_id)
    /\ Occurs "error" text
    /\ database (chat_with_character w db character_name user_input user_id (Some session_id))
       = db.
Proof.
  intros Hsid [prompt [Hin Hpost]] Hfail.
  apply truthy_nonempty in Hsid.
  destruct (Query.first (Query.characters_by_name character_name db)) as [character|] eqn:F.
  - rewrite (chat_posted _ _ _ _ _ _ character F) in Hin.
    destruct Hin as [<-|[]].
    destruct (generate_failed w db character user_input user_id
                (mint w (Some session_id)) _ response Hpost Hfail) as [[detail G]|[e G]].
    + rewrite (chat_returned _ _ _ _ _ _ character F _ _ G).
      rewrite (mint_supplied _ _ Hsid). cbn [returned database].
      eexists. split; [reflexivity|]. split; [apply error_in_generation | reflexivity].
    + rewrite (chat_raised _ _ _ _ _ _ character F _ G).
      rewrite (mint_supplied _ _ Hsid). cbn [returned database].
      eexists. split; [reflexivity|]. split; [apply error_in_unexpected | reflexivity].
  - rewrite (chat_not_found _ _ _ _ _ _ F) in Hin. destruct Hin.
Qed.

Lemma gateway_failure_keeps_session_witness :
  exists text,
    returned (chat_with_character Sample.failing Sample.fifteen "Chuck the Clown"
                (Some "tell me a joke") 1 (Some "session-1"))
    = (Json.JStr text, Some "session-1")
    /\ Occurs "error" text
    /\ database (chat_with_character Sample.failing Sample.fifteen "Chuck the Clown"
                   (Some "tell me a joke") 1 (Some "session-1"))
       = Sample.fifteen.
Proof.
  apply (gateway_failure_keeps_session Sample.failing Sample.fifteen "Chuck the Clown"
           (Some "tell me a joke") 1 "session-1" Sample.internal_error).
  - discriminate.
  - eexists. split; [vm_compute; left; reflexivity | reflexivity].
  - left. vm_compute. discriminate.
Defined.

(** C2, as stated, fails for the empty string: passed as session identifier
    to a call whose remote model answers HTTP 500, it is not handed back;
    the call returns a freshly minted identifier instead. *)
Lemma empty_session_id_not_returned :
  answered Sample.failing
    (chat_with_character Sample.failing Sample.seeded "Chuck the Clown"
       (Some "tell me a joke") 1 (Some ""))
    Sample.internal_error
  /\ gateway_failed Sample.internal_error
  /\ returned (chat_with_character Sample.failing Sample.seeded "Chuck the Clown"
                 (Some "tell me a joke") 1 (Some ""))
     = (Json.JStr "An error occurred while generating content: 500 - Internal Server Error",
        Some "00000000-0000-0000-0000-000000000063")
  /\ snd (returned (chat_with_character Sample.failing Sample.seeded "Chuck the Clown"
                      (Some "tell me a joke") 1 (Some "")))
     <> Some "".
Proof.
  split; [|split; [|split]].
  - eexists. split; [vm_compute; left; reflexivity | reflexivity].
  - left. vm_compute. discriminate.
  - vm_compute. reflexivity.
  - vm_compute. discriminate.
Qed.




(** A candidate whose text is the number 5: the call stores the turn, with
    the text "5", and returns the number itself. *)
Example numeric_reply :
  returned (chat_with_character Scenario.numeric Sample.seeded "Chuck the Clown"
              (Some "count") 1 (Some "session-a"))
  = (Json.JNum 5, Some "session-a")
  /\ conversations
       (database (chat_with_character Scenario.numeric Sample.seeded "Chuck the Clown"
                    (Some "count") 1 (Some "session-a")))
     = [Conversation.Build 1 1 (Some "count") "5" 2000 (Some "session-a") 1].
Proof. split; vm_compute; reflexivity. Qed.

(** ** Persona store *)

Lemma lookup_none (db : Database) (name : string) :
  Query.first (Query.characters_by_name name db) = None ->
  forall c, In c (characters db) -> Character.name c <> name.
Proof.
  intros F c Hin E.
  destruct (lookup_present db name) as [character H]; [now exists c|].
  congruence.
Qed.

Lemma add_character_existing (w : World) (db : Database)
    (name description prompt_template : string) (character : Character.t) :
  Query.first (Query.characters_by_name name db) = Some character ->
  add_character w db name description prompt_template
  = ("Character '" ++ name ++ "' already exists!", db).
Proof. unfold add_character. now intros ->. Qed.

Lemma add_character_new (w : World) (db : Database)
    (name description prompt_template : string) :
  Query.first (Query.characters_by_name name db) = None ->
  commit w = None ->
  add_character w db name description prompt_template
  = ("Character '" ++ name ++ "' added successfully!" ++ Py.nl
       ++ "Description: " ++ description,
     {| characters :=
          (characters db
             ++ [Character.Build (Query.next_id (map Character.id (characters db)))
                   name description prompt_template])%list;
        conversations := conversations db |}).
Proof. unfold add_character, insert_character. now intros -> ->. Qed.

Lemma add_character_refused (w : World) (db : Database)
    (name description prompt_template : string) (e : exn) :
  Query.first (Query.characters_by_name name db) = None ->
  commit w = Some e ->
  add_character w db name description prompt_template
  = ("An error occurred while adding the character: " ++ str_exn e, db).
Proof. unfold add_character, insert_character. now intros -> ->. Qed.

(** C8.  When a persona of that name is already stored, [add_character]
    answers that the character already exists and leaves the database as it
    was.  When none is stored and the commit goes through, the persona table
    is the old one followed by exactly one new row, which carries the given
    name, description and template.  In every case personas that had
    pairwise different names still have. *)
Theorem add_character_unique (w : World) (db : Database)
    (name description prompt_template : string) :
  ((exists c, In c (characters db) /\ Character.name c = name) ->
   add_character w db name description prompt_template
   = ("Character '" ++ name ++ "' already exists!", db))
  /\ ((forall c, In c (characters db) -> Character.name c <> name) ->
      commit w = None ->
      exists new_character,
        characters (snd (add_character w db name description prompt_template))
        = (characters db ++ [new_character])%list
        /\ Character.name new_character = name
        /\ Character.description new_character = description
        /\ Character.prompt_template new_character = prompt_template
        /\ conversations (snd (add_character w db name description prompt_template))
           = conversations db)
  /\ (NoDup (map Character.name (characters db)) ->
      NoDup (map Character.name
               (characters (snd (add_character w db name description prompt_template))))).
Proof.
  split; [|split].
  - intros H. destruct (lookup_present db name H) as [character F].
    now apply add_character_existing with character.
  - intros H C. rewrite add_character_new; [|now apply lookup_absent|exact C].
    eexists. cbn. repeat split.
  - intros ND.
    destruct (Query.first (Query.characters_by_name name db)) as [character|] eqn:F.
    + now rewrite (add_character_existing _ _ _ _ _ character F).
    + destruct (commit w) as [e|] eqn:C.
      * now rewrite (add_character_refused _ _ _ _ _ e F C).
      * rewrite (add_character_new _ _ _ _ _ F C). cbn [snd characters].
        rewrite map_app. cbn [map Character.name].
        apply NoDup_app; [exact ND | repeat constructor; intros [] | ].
        intros n Hn [<-|[]].
        apply in_map_iff in Hn. destruct Hn as [c [E Hin]].
        exact (lookup_none db _ F c Hin E).
Qed.

Lemma add_character_unique_witness :
  add_character Sample.replying Sample.seeded "Chuck the Clown" "Another clown." "You are a clown."
  = ("Character 'Chuck the Clown' already exists!", Sample.seeded)
  /\ (exists new_character,
        characters (snd (add_character Sample.replying Sample.seeded "Captain Nemo"
                           "A submarine captain." "You are Captain Nemo."))
        = (characters Sample.seeded ++ [new_character])%list
        /\ Character.name new_character = "Captain Nemo"
        /\ Character.description new_character = "A submarine captain."
        /\ Character.prompt_template new_character = "You are Captain Nemo."
        /\ conversations (snd (add_character Sample.replying Sample.seeded "Captain Nemo"
                                 "A submarine captain." "You are Captain Nemo."))
           = conversations Sample.seeded)
  /\ NoDup (map Character.name
              (characters (snd (add_character Sample.replying Sample.seeded "Captain Nemo"
                                  "A submarine captain." "You are Captain Nemo.")))).
Proof.
  split; [|split].
  - apply (proj1 (add_character_unique Sample.replying Sample.seeded "Chuck the Clown"
                    "Another clown." "You are a clown.")).
    exists Sample.chuck. split; [now left | reflexivity].
  - apply (proj1 (proj2 (add_character_unique Sample.replying Sample.seeded "Captain Nemo"
                           "A submarine captain." "You are Captain Nemo."))).
    + intros c [<-|[<-|[<-|[]]]]; simpl; discriminate.
    + reflexivity.
  - apply (proj2 (proj2 (add_character_unique Sample.replying Sample.seeded "Captain Nemo"
                           "A submarine captain." "You are Captain Nemo."))).
    simpl. repeat constructor; simpl; intuition discriminate.
Defined.

(** ** Context of a call without session identifier *)

(** C1, evaluated.  User 1 has 15 stored turns with Chuck and calls without
    a session identifier.  The ten most recent turns, oldest first, are turns
    6 to 15; the call however selects no prior turn at all and posts the
    prompt of an empty context: the identifier is minted before the test
    that chooses between the two queries, so the per-session query runs
    under the fresh identifier and the recent-turns query is never reached. *)
Lemma fresh_session_has_empty_context :
  most_recent 10 (Query.conversations_by_character 1 (Character.id Sample.chuck) Sample.fifteen)
  = map Sample.turn (seq 6 10)
  /\ previous_conversations Sample.fifteen Sample.chuck 1 (mint Sample.replying None) = []
  /\ posted (chat_with_character Sample.replying Sample.fifteen "Chuck the Clown"
               (Some "tell me a joke") 1 None)
     = [full_prompt (Character.prompt_template Sample.chuck) [] (Some "tell me a joke")]
  /\ posted (chat_with_character Sample.replying Sample.fifteen "Chuck the Clown"
               (Some "tell me a joke") 1 None)
     <> [full_prompt (Character.prompt_template Sample.chuck)
           (most_recent 10
              (Query.conversations_by_character 1 (Character.id Sample.chuck) Sample.fifteen))
           (Some "tell me a joke")].
Proof.
  split; [|split; [|split]].
  - vm_compute. reflexivity.
  - vm_compute. reflexivity.
  - vm_compute. reflexivity.
  - vm_compute. intros H. discriminate H.
Qed.

(** ** ORDER BY *)

Section Ordering.

Variable A : Type.
Variable le : A -> A -> bool.
Hypothesis le_total : forall x y, le x y = false -> le y x = true.
Hypothesis le_trans : forall x y z, le x y = true -> le y z = true -> le x z = true.

Let R (x y : A) : Prop := le x y = true.

Lemma insert_by_perm (x : A) (rows : list A) :
  Permutation (Query.insert_by le x rows) (x :: rows).
Proof.
  induction rows as [|y rest IH]; simpl.
  - apply Permutation_refl.
  - destruct (le x y).
    + apply Permutation_refl.
    + eapply perm_trans; [apply perm_skip, IH | apply perm_swap].
Qed.

Lemma order_by_perm (rows : list A) : Permutation (Query.order_by le rows) rows.
Proof.
  induction rows as [|x rest IH]; simpl.
  - apply perm_nil.
  - eapply perm_trans; [apply insert_by_perm | apply perm_skip, IH].
Qed.

Lemma insert_by_sorted (x : A) (rows : list A) :
  StronglySorted R rows -> StronglySorted R (Query.insert_by le x rows).
Proof.
  induction rows as [|y rest IH]; intros S; simpl.
  - constructor; constructor.
  - inversion S as [|? ? Srest Hy]; subst.
    destruct (le x y) eqn:E.
    + constructor; [exact S|].
      constructor; [exact E|].
      eapply Forall_impl; [|exact Hy]. intros z Hz. exact (le_trans _ _ _ E Hz).
    + constructor; [now apply IH|].
      eapply Permutation_Forall; [apply Permutation_sym, insert_by_perm|].
      constructor; [exact (le_total _ _ E) | exact Hy].
Qed.

Lemma order_by_sorted (rows : list A) : StronglySorted R (Query.order_by le rows).
Proof.
  induction rows as [|x rest IH]; simpl.
  - constructor.
  - now apply insert_by_sorted.
Qed.

(** The first row of the ordered result is a row that precedes all. *)
Lemma first_order_by (rows : list A) (x : A) :
  Query.first (Query.order_by le rows) = Some x ->
  In x rows /\ forall y, In y rows -> y = x \/ le x y = true.
Proof.
  intros F.
  pose proof (order_by_perm rows) as P.
  pose proof (order_by_sorted rows) as S.
  destruct (Query.order_by le rows) as [|h rest]; [discriminate|].
  injection F as ->.
  split.
  - eapply Permutation_in; [exact P | now left].
  - intros y Hy.
    apply (Permutation_in _ (Permutation_sym P)) in Hy.
    destruct Hy as [->|Hy]; [now left|].
    right. inversion S as [|? ? _ Hall]; subst.
    rewrite Forall_forall in Hall. now apply Hall.
Qed.

Lemma first_order_by_some (rows : list A) :
  rows <> [] -> exists x, Query.first (Query.order_by le rows) = Some x.
Proof.
  intros N. pose proof (order_by_perm rows) as P.
  destruct (Query.order_by le rows) as [|h rest].
  - apply Permutation_nil in P. contradiction.
  - now exists h.
Qed.

End Ordering.

Lemma asc_total {A : Type} (key : A -> Z) (x y : A) :
  Query.asc key x y = false -> Query.asc key y x = true.
Proof. unfold Query.asc. intros H. apply Z.leb_gt in H. apply Z.leb_le. lia. Qed.

Lemma asc_trans {A : Type} (key : A -> Z) (x y z : A) :
  Query.asc key x y = true -> Query.asc key y z = true -> Query.asc key x z = true.
Proof. unfold Query.asc. rewrite !Z.leb_le. lia. Qed.

Lemma desc_total {A : Type} (key : A -> Z) (x y : A) :
  Query.desc key x y = false -> Query.desc key y x = true.
Proof. unfold Query.desc. intros H. apply Z.leb_gt in H. apply Z.leb_le. lia. Qed.

Lemma desc_trans {A : Type} (key : A -> Z) (x y z : A) :
  Query.desc key x y = true -> Query.desc key y z = true -> Query.desc key x z = true.
Proof. unfold Query.desc. rewrite !Z.leb_le. lia. Qed.

(** Rows ordered by a key, descending: the keys read in order never grow. *)
Lemma order_by_desc_keys {A : Type} (key : A -> Z) (rows : list A) :
  StronglySorted Z.ge (map key (Query.order_by (Query.desc key) rows)).
Proof.
  pose proof (order_by_sorted A (Query.desc key) (desc_total key) (desc_trans key) rows) as S.
  induction S as [|x l S IH Hall]; simpl.
  - constructor.
  - constructor; [exact IH|].
    rewrite Forall_map. eapply Forall_impl; [|exact Hall].
    intros y Hy. unfold Query.desc in Hy. apply Z.leb_le in Hy. lia.
Qed.

(** ** Sessions of a user *)

Lemma same_chat_id_true (a b : option string) :
  Query.same_chat_id a b = true <-> a = b.
Proof.
  unfold Query.same_chat_id.
  destruct (Query.chat_id_eq_dec a b); split; intros H; congruence.
Qed.

Section Sessions.

Variable db : Database.
Variable user_id : Z.

Lemma conversations_by_chat_In (chat_id : option string) (c : Conversation.t) :
  In c (Query.conversations_by_chat user_id chat_id db) <-> in_session db user_id chat_id c.
Proof.
  unfold Query.conversations_by_chat, in_session.
  rewrite filter_In, andb_true_iff, Z.eqb_eq, same_chat_id_true. tauto.
Qed.

Lemma first_message_earliest (chat_id : option string) (m : Conversation.t) :
  History.first_message db user_id chat_id = Some m ->
  earliest_in_session db user_id chat_id m.
Proof.
  unfold History.first_message. intros F.
  apply first_order_by in F;
    [|apply asc_total | apply asc_trans].
  destruct F as [Hin Hmin]. split.
  - now apply conversations_by_chat_In.
  - intros c' Hc'. apply conversations_by_chat_In in Hc'.
    destruct (Hmin c' Hc') as [->|H]; [lia|].
    unfold Query.asc in H. now apply Z.leb_le.
Qed.

Lemma first_message_exists (chat_id : option string) (c : Conversation.t) :
  in_session db user_id chat_id c ->
  exists m, History.first_message db user_id chat_id = Some m.
Proof.
  intros H. apply conversations_by_chat_In in H.
  unfold History.first_message. apply first_order_by_some.
  intros E. rewrite E in H. destruct H.
Qed.

Lemma join_In (c : Conversation.t) (char : Character.t) :
  In (c, char) (History.join db)
  <-> In c (conversations db) /\ In char (characters db)
      /\ Conversation.character_id c = Character.id char.
Proof.
  unfold History.join. rewrite in_flat_map. split.
  - intros [c' [Hc' H]]. apply in_map_iff in H. destruct H as [char' [E H]].
    injection E as -> ->. apply filter_In in H. destruct H as [H1 H2].
    apply Z.eqb_eq in H2. tauto.
  - intros [H1 [H2 H3]]. exists c. split; [exact H1|].
    apply in_map. apply filter_In. split; [exact H2 | now apply Z.eqb_eq].
Qed.

(** The joined rows of the user. *)
Let rows : list History.joined_row :=
  filter (fun r => (Conversation.user_id (fst r) =? user_id)%Z) (History.join db).

Lemma rows_In (c : Conversation.t) (char : Character.t) :
  In (c, char) rows
  <-> In c (conversations db) /\ Conversation.user_id c = user_id
      /\ In char (characters db) /\ Conversation.character_id c = Character.id char.
Proof.
  unfold rows. rewrite filter_In, join_In. cbn [fst]. rewrite Z.eqb_eq. tauto.
Qed.

Lemma fold_earlier (rest : list History.joined_row) (r0 : History.joined_row) :
  In (fold_left History.earlier rest r0) (r0 :: rest)
  /\ forall r, In r (r0 :: rest) ->
       (Conversation.timestamp (fst (fold_left History.earlier rest r0))
        <= Conversation.timestamp (fst r))%Z.
Proof.
  revert r0. induction rest as [|x rest IH]; intros r0; cbn [fold_left].
  - split; [now left|]. intros r [<-|[]]. lia.
  - destruct (IH (History.earlier r0 x)) as [Hin Hmin].
    assert (Hsel : (History.earlier r0 x = r0 \/ History.earlier r0 x = x)
                   /\ (Conversation.timestamp (fst (History.earlier r0 x))
                       <= Conversation.timestamp (fst r0))%Z
                   /\ (Conversation.timestamp (fst (History.earlier r0 x))
                       <= Conversation.timestamp (fst x))%Z).
    { unfold History.earlier.
      destruct (Conversation.timestamp (fst x) <? Conversation.timestamp (fst r0))%Z eqn:E.
      - apply Z.ltb_lt in E. split; [now right|]. lia.
      - apply Z.ltb_ge in E. split; [now left|]. lia. }
    destruct Hsel as [Hsel [H0 Hx]]. split.
    + destruct Hin as [Hin|Hin].
      * rewrite <- Hin. destruct Hsel as [E|E]; rewrite E; [now left | right; now left].
      * right. now right.
    + pose proof (Hmin _ (or_introl eq_refl)) as Hm.
      intros r [<-|[<-|Hr]].
      * lia.
      * lia.
      * apply Hmin. now right.
Qed.

Lemma min_row_spec (group : list History.joined_row) :
  group <> [] ->
  exists r, History.min_row group = Some r
            /\ In r group
            /\ forall r', In r' group ->
                 (Conversation.timestamp (fst r) <= Conversation.timestamp (fst r'))%Z.
Proof.
  destruct group as [|r0 rest]; [congruence|]. intros _.
  exists (fold_left History.earlier rest r0). split; [reflexivity|].
  apply fold_earlier.
Qed.

Hypothesis integrity : referential_integrity db.

Lemma session_joined (chat_id : option string) (c : Conversation.t) :
  in_session db user_id chat_id c -> exists char, In (c, char) rows.
Proof.
  intros [Hin [Hu _]]. destruct (integrity c Hin) as [char [Hchar E]].
  exists char. apply rows_In. repeat split; auto.
Qed.

Lemma group_row_spec (chat_id : option string) (c : Conversation.t) :
  in_session db user_id chat_id c ->
  exists s, History.group_row rows chat_id = [s]
            /\ row_chat_id s = chat_id
            /\ session_of db user_id s.
Proof.
  intros Hc. destruct (session_joined _ _ Hc) as [char Hrow].
  unfold History.group_row.
  set (group := filter (fun r => Query.same_chat_id (Conversation.chat_id (fst r)) chat_id)
                       rows).
  assert (Hgroup : forall c' char', In (c', char') group
                     <-> In (c', char') rows /\ Conversation.chat_id c' = chat_id).
  { intros. unfold group. rewrite filter_In. cbn [fst]. now rewrite same_chat_id_true. }
  destruct (min_row_spec group) as [[m mchar] [-> [Hm Hmin]]].
  { intros E. assert (H : In (c, char) group) by (apply Hgroup; split; [exact Hrow | apply Hc]).
    rewrite E in H. destruct H. }
  eexists. split; [reflexivity|]. split; [reflexivity|].
  apply Hgroup in Hm. destruct Hm as [Hm Hchat].
  apply rows_In in Hm. destruct Hm as [H1 [H2 [H3 H4]]].
  exists m, mchar. repeat split; auto.
  intros c' Hc'. destruct (session_joined _ _ Hc') as [char' Hrow'].
  apply (Hmin (c', char')). apply Hgroup. split; [exact Hrow' | apply Hc'].
Qed.

(** The keys of the GROUP BY are the session identifiers of the user. *)
Lemma keys_In (chat_id : option string) :
  In chat_id (nodup Query.chat_id_eq_dec (map (fun r => Conversation.chat_id (fst r)) rows))
  <-> exists c, in_session db user_id chat_id c.
Proof.
  rewrite nodup_In, in_map_iff. split.
  - intros [[c char] [E H]]. cbn [fst] in E. apply rows_In in H.
    exists c. unfold in_session. tauto.
  - intros [c Hc]. destruct (session_joined _ _ Hc) as [char Hrow].
    exists (c, char). split; [apply Hc | exact Hrow].
Qed.

Lemma grouped_spec (keys : list (option string)) :
  (forall k, In k keys -> exists c, in_session db user_id k c) ->
  map row_chat_id (flat_map (History.group_row rows) keys) = keys
  /\ Forall (session_of db user_id) (flat_map (History.group_row rows) keys).
Proof.
  induction keys as [|k keys IH]; intros H; cbn [flat_map].
  - split; [reflexivity | constructor].
  - destruct (H k (or_introl eq_refl)) as [c Hc].
    destruct (group_row_spec k c Hc) as [s [-> [Hk Hs]]].
    destruct IH as [IH1 IH2]; [intros k' Hk'; apply H; now right|].
    cbn [app map]. split; [now rewrite Hk, IH1 | now constructor].
Qed.

(** The grouped query: one row for each session of the user, latest start
    first. *)
Lemma chat_sessions_spec :
  Forall (session_of db user_id) (History.chat_sessions db user_id)
  /\ StronglySorted Z.ge (map History.start_time (History.chat_sessions db user_id))
  /\ NoDup (map row_chat_id (History.chat_sessions db user_id))
  /\ forall chat_id,
       In chat_id (map row_chat_id (History.chat_sessions db user_id))
       <-> exists c, in_session db user_id chat_id c.
Proof.
  unfold History.chat_sessions. cbv zeta. fold rows.
  set (keys := nodup Query.chat_id_eq_dec (map (fun r => Conversation.chat_id (fst r)) rows)).
  destruct (grouped_spec keys) as [Hkeys Hall]; [intros k Hk; now apply keys_In|].
  pose proof (order_by_perm _ (Query.desc History.start_time)
                (flat_map (History.group_row rows) keys)) as P.
  assert (Pk : Permutation
                 (map row_chat_id
                    (Query.order_by (Query.desc History.start_time)
                       (flat_map (History.group_row rows) keys))) keys).
  { eapply perm_trans; [apply Permutation_map, P|]. rewrite Hkeys. apply Permutation_refl. }
  split; [|split; [|split]].
  - eapply Permutation_Forall; [apply Permutation_sym, P | exact Hall].
  - apply order_by_desc_keys.
  - eapply Permutation_NoDup; [apply Permutation_sym, Pk | apply NoDup_nodup].
  - intros chat_id. rewrite <- keys_In. fold keys. split; intros H.
    + eapply Permutation_in; [exact Pk | exact H].
    + eapply Permutation_in; [apply Permutation_sym, Pk | exact H].
Qed.

End Sessions.

(** ** The loop of [get_chat_history] *)

Lemma references_ok_spec (db : Database) :
  references_ok db = true -> referential_integrity db.
Proof.
  unfold references_ok, referential_integrity. rewrite forallb_forall.
  intros H c Hc. apply H in Hc. apply existsb_exists in Hc.
  destruct Hc as [char [Hin E]]. exists char. split; [exact Hin | now apply Z.eqb_eq].
Qed.

Lemma inputs_present_spec (db : Database) (user_id : Z) :
  inputs_present db = true -> previews_defined db user_id.
Proof.
  unfold inputs_present, previews_defined. rewrite forallb_forall.
  intros H chat_id m F. apply first_message_earliest in F.
  destruct F as [[Hin _] _]. apply H in Hin.
  destruct (Conversation.user_input m); [discriminate | discriminate Hin].
Qed.

Section Loop.

Variable strftime : Z -> string.
Variable db : Database.
Variable user_id : Z.

Lemma preview_of_some (s : string) : exists preview, preview_of (Some s) = Ok preview.
Proof. unfold preview_of. destruct (30 <? String.length s)%nat; eexists; reflexivity. Qed.

Lemma session_entry_defined (s : History.session_row) :
  previews_defined db user_id ->
  exists added, History.session_entry strftime db user_id s = Ok added.
Proof.
  intros H. destruct s as [[chat_id character_name] start]. unfold History.session_entry.
  destruct (History.first_message db user_id chat_id) as [m|] eqn:F; [|now eexists].
  destruct (Conversation.user_input m) as [text|] eqn:U.
  - destruct (preview_of_some text) as [preview ->]. cbn [obind]. now eexists.
  - elim (H chat_id m F U).
Qed.

Lemma session_entry_raises (s : History.session_row) (e : exn) :
  History.session_entry strftime db user_id s = Raise e -> e = no_len.
Proof.
  destruct s as [[chat_id character_name] start]. unfold History.session_entry.
  destruct (History.first_message db user_id chat_id) as [m|]; [|discriminate].
  destruct (Conversation.user_input m) as [text|].
  - destruct (preview_of_some text) as [preview ->]. discriminate.
  - cbn. congruence.
Qed.

Lemma session_entry_null (s : History.session_row) (m : Conversation.t) :
  History.first_message db user_id (row_chat_id s) = Some m ->
  Conversation.user_input m = None ->
  History.session_entry strftime db user_id s = Raise no_len.
Proof.
  destruct s as [[chat_id character_name] start]. unfold row_chat_id. cbn [fst].
  unfold History.session_entry. now intros -> ->.
Qed.

Lemma history_loop_defined (sessions : list History.session_row) (result : list History.entry) :
  (forall s, In s sessions ->
             exists added, History.session_entry strftime db user_id s = Ok added) ->
  exists final, History.history_loop strftime db user_id sessions result = Ok final.
Proof.
  revert result. induction sessions as [|s rest IH]; intros result H; cbn [History.history_loop].
  - now eexists.
  - destruct (H s (or_introl eq_refl)) as [added ->]. cbn [obind].
    apply IH. intros s' Hs'. apply H. now right.
Qed.

Lemma history_loop_raises (sessions : list History.session_row) (result : list History.entry)
    (s : History.session_row) :
  In s sessions ->
  History.session_entry strftime db user_id s = Raise no_len ->
  History.history_loop strftime db user_id sessions result = Raise no_len.
Proof.
  revert result. induction sessions as [|x rest IH]; intros result Hin Hs; [destruct Hin|].
  cbn [History.history_loop].
  destruct (History.session_entry strftime db user_id x) as [added|e] eqn:X; cbn [obind].
  - destruct Hin as [->|Hin]; [congruence|]. now apply IH.
  - now rewrite (session_entry_raises x e X).
Qed.

Lemma session_entry_describes (s : History.session_row) :
  previews_defined db user_id ->
  session_of db user_id s ->
  exists e, History.session_entry strftime db user_id s = Ok [e]
            /\ describes strftime db user_id e (History.start_time s)
            /\ entry_chat_id e = row_chat_id s.
Proof.
  intros Hdef. destruct s as [[chat_id character_name] start].
  intros [c [char [Hc [Hchar [Hid [Hname Hstart]]]]]].
  unfold History.session_entry.
  destruct (first_message_exists db user_id chat_id c (proj1 Hc)) as [m F].
  rewrite F. pose proof (first_message_earliest _ _ _ _ F) as Hm.
  destruct (Conversation.user_input m) as [text|] eqn:U; [|elim (Hdef chat_id m F U)].
  destruct (preview_of_some text) as [preview P]. rewrite P. cbn [obind].
  eexists. split; [reflexivity|]. split; [|reflexivity].
  unfold describes, History.start_time. cbn [snd].
  exists m, c, char. rewrite U.
  assert (T : Conversation.timestamp c = Conversation.timestamp m).
  { destruct Hc as [Hc1 Hc2], Hm as [Hm1 Hm2].
    pose proof (Hc2 m Hm1). pose proof (Hm2 c Hc1). lia. }
  repeat split; try tauto; try congruence; try apply Hm; try apply Hc.
Qed.

Lemma history_loop_describes (sessions : list History.session_row)
    (result : list History.entry) :
  previews_defined db user_id ->
  Forall (session_of db user_id) sessions ->
  exists entries,
    History.history_loop strftime db user_id sessions result = Ok (result ++ entries)%list
    /\ Forall2 (describes strftime db user_id) entries (map History.start_time sessions)
    /\ map entry_chat_id entries = map row_chat_id sessions.
Proof.
  intros Hdef. revert result.
  induction sessions as [|s rest IH]; intros result Hall; cbn [History.history_loop].
  - exists []. rewrite app_nil_r. repeat split. constructor.
  - inversion Hall as [|? ? Hs Hrest]; subst.
    destruct (session_entry_describes s Hdef Hs) as [e [-> [Hd He]]]. cbn [obind].
    destruct (IH (result ++ [e])%list Hrest) as [entries [-> [H2 Hids]]].
    exists (e :: entries). rewrite <- app_assoc. cbn [app map].
    split; [reflexivity|]. split; [now constructor | now rewrite He, Hids].
Qed.

End Loop.

(** C9, as the code has it.  In a store whose turns all refer to stored
    personas and in which every session of the user starts with a turn that
    has a [user_input], [get_chat_history] returns one entry for each
    distinct session identifier among the user's turns.  Each entry carries
    the name of the persona of an earliest turn of its session, the preview
    of an earliest turn, the formatted minimum timestamp and the number of
    the user's turns in the session; read in order, the start times never
    increase. *)
Theorem get_chat_history_sessions (strftime : Z -> string) (db : Database) (user_id : Z) :
  referential_integrity db ->
  previews_defined db user_id ->
  exists result starts,
    History.get_chat_history strftime db user_id = Ok result
    /\ Forall2 (describes strftime db user_id) result starts
    /\ StronglySorted Z.ge starts
    /\ NoDup (map entry_chat_id result)
    /\ forall chat_id,
         In chat_id (map entry_chat_id result)
         <-> exists c, in_session db user_id chat_id c.
Proof.
  intros Hint Hdef.
  destruct (chat_sessions_spec db user_id Hint) as [Hall [Hsorted [Hnodup Hkeys]]].
  destruct (history_loop_describes strftime db user_id
              (History.chat_sessions db user_id) [] Hdef Hall)
    as [entries [Hrun [Hdesc Hids]]].
  exists entries, (map History.start_time (History.chat_sessions db user_id)).
  unfold History.get_chat_history. rewrite Hrun, Hids.
  repeat split; try assumption; now apply Hkeys.
Qed.

Lemma get_chat_history_sessions_witness :
  exists result starts,
    History.get_chat_history Py.str_int Sample.chatty 1 = Ok result
    /\ Forall2 (describes Py.str_int Sample.chatty 1) result starts
    /\ StronglySorted Z.ge starts
    /\ NoDup (map entry_chat_id result)
    /\ forall chat_id,
         In chat_id (map entry_chat_id result)
         <-> exists c, in_session Sample.chatty 1 chat_id c.
Proof.
  apply (get_chat_history_sessions Py.str_int Sample.chatty 1).
  - apply references_ok_spec. vm_compute. reflexivity.
  - apply inputs_present_spec. vm_compute. reflexivity.
Defined.

(** C9, as stated, fails: user 1 has a turn, in session "session-a", but
    that turn has no [user_input], and [get_chat_history] raises instead of
    returning an entry for the session. *)
Lemma get_chat_history_raises_on_greeting :
  (exists c, in_session Sample.greeted 1 (Some "session-a") c)
  /\ referential_integrity Sample.greeted
  /\ History.get_chat_history Py.str_int Sample.greeted 1 = Raise no_len
  /\ forall result, History.get_chat_history Py.str_int Sample.greeted 1 <> Ok result.
Proof.
  split; [|split; [|split]].
  - eexists. split; [left; reflexivity | split; reflexivity].
  - apply references_ok_spec. vm_compute. reflexivity.
  - vm_compute. reflexivity.
  - intros result. vm_compute. discriminate.
Qed.

(** C10.  [get_chat_history] returns a result whenever every session of
    the user starts with a turn that has a [user_input]; and when, in a
    store whose turns refer to stored personas, some session of the user
    starts with a turn whose [user_input] is [None], it raises the
    [TypeError] of [len(None)] and returns nothing. *)
Theorem get_chat_history_partial (strftime : Z -> string) (db : Database) (user_id : Z) :
  (previews_defined db user_id ->
   exists result, History.get_chat_history strftime db user_id = Ok result)
  /\ (referential_integrity db ->
      (exists chat_id message,
         History.first_message db user_id chat_id = Some message
         /\ Conversation.user_input message = None) ->
      History.get_chat_history strftime db user_id = Raise no_len).
Proof.
  split.
  - intros Hdef. unfold History.get_chat_history.
    apply history_loop_defined. intros s _. now apply session_entry_defined.
  - intros Hint [chat_id [m [F U]]].
    destruct (chat_sessions_spec db user_id Hint) as [_ [_ [_ Hkeys]]].
    assert (Hin : In chat_id (map row_chat_id (History.chat_sessions db user_id))).
    { apply Hkeys. exists m. now apply first_message_earliest in F as [H _]. }
    apply in_map_iff in Hin. destruct Hin as [s [<- Hs]].
    unfold History.get_chat_history.
    apply history_loop_raises with s; [exact Hs|].
    now apply session_entry_null with m.
Qed.

Lemma get_chat_history_partial_witness :
  (exists result, History.get_chat_history Py.str_int Sample.chatty 2 = Ok result)
  /\ History.get_chat_history Py.str_int Sample.interrupted 1 = Raise no_len.
Proof.
  split.
  - apply (proj1 (get_chat_history_partial Py.str_int Sample.chatty 2)).
    apply inputs_present_spec. vm_compute. reflexivity.
  - apply (proj2 (get_chat_history_partial Py.str_int Sample.interrupted 1)).
    + apply references_ok_spec. vm_compute. reflexivity.
    + exists (Some "session-b"). eexists. split; vm_compute; reflexivity.
Defined.

(** * Further properties of the code *)

(** ** What a call does to the store *)

Lemma app_one_neq {A : Type} (l : list A) (x : A) : l <> (l ++ [x])%list.
Proof.
  intros H. apply (f_equal (@List.length A)) in H. rewrite length_app in H. simpl in H. lia.
Qed.

Lemma answered_found (w : World) (db : Database) (character_name : string)
    (user_input : option string) (user_id : Z) (chat_id : option string)
    (character : Character.t) (response : Response.t) :
  Query.first (Query.characters_by_name character_name db) = Some character ->
  answered w (chat_with_character w db character_name user_input user_id chat_id) response ->
  requests_post w
    (full_prompt (Character.prompt_template character)
       (previous_conversations db character user_id (mint w chat_id)) user_input)
  = Ok response.
Proof.
  intros F [prompt [Hin Hpost]].
  rewrite (chat_posted _ _ _ _ _ _ character F) in Hin.
  now destruct Hin as [<-|[]].
Qed.

(** X1.  When the persona is known, the remote model answers 200 with a
    payload whose first candidate carries a text, and the commit goes
    through, the call returns that text with the session identifier in
    force and appends exactly one turn: the given input and user, the
    reply, the persona's id, the clock's time and that identifier. *)
Theorem exchange_stores_one_turn (w : World) (db : Database) (character_name : string)
    (user_input : option string) (user_id : Z) (chat_id : option string)
    (character : Character.t) (response : Response.t) (payload : Json.t) (reply : string) :
  Query.first (Query.characters_by_name character_name db) = Some character ->
  answered w (chat_with_character w db character_name user_input user_id chat_id) response ->
  Response.status_code response = 200%Z ->
  Response.json response = Ok payload ->
  carries payload reply ->
  commit w = None ->
  returned (chat_with_character w db character_name user_input user_id chat_id)
  = (Json.JStr reply, mint w chat_id)
  /\ database (chat_with_character w db character_name user_input user_id chat_id)
     = {| characters := characters db;
          conversations :=
            (conversations db
               ++ [Conversation.Build
                     (Query.next_id (map Conversation.id (conversations db)))
                     (Character.id character) user_input reply (utcnow w)
                     (mint w chat_id) user_id])%list |}.
Proof.
  intros F Hans Hstatus Hjson Hcarries Hcommit.
  pose proof (answered_found _ _ _ _ _ _ _ _ F Hans) as Hpost.
  pose proof (generate_success w db character user_input user_id chat_id _ _ _ _
                Hpost Hstatus Hjson Hcarries Hcommit) as G.
  rewrite (chat_returned _ _ _ _ _ _ character F _ _ G). now split.
Qed.

Lemma sample_generation_carries (reply : string) : carries (Sample.generation reply) reply.
Proof. unfold carries, Sample.generation. repeat eexists. Qed.

Lemma exchange_stores_one_turn_witness :
  returned (chat_with_character Sample.replying Sample.chatty "Chuck the Clown"
              (Some "one more") 1 (Some "session-a"))
  = (Json.JStr "Why did the clown cross the road?", mint Sample.replying (Some "session-a"))
  /\ database (chat_with_character Sample.replying Sample.chatty "Chuck the Clown"
                 (Some "one more") 1 (Some "session-a"))
     = {| characters := characters Sample.chatty;
          conversations :=
            (conversations Sample.chatty
               ++ [Conversation.Build
                     (Query.next_id (map Conversation.id (conversations Sample.chatty)))
                     (Character.id Sample.chuck) (Some "one more")
                     "Why did the clown cross the road?" (utcnow Sample.replying)
                     (mint Sample.replying (Some "session-a")) 1])%list |}.
Proof.
  apply (exchange_stores_one_turn Sample.replying Sample.chatty "Chuck the Clown"
           (Some "one more") 1 (Some "session-a") Sample.chuck
           (Response.Build 200 "" (Ok (Sample.generation "Why did the clown cross the road?")))
           (Sample.generation "Why did the clown cross the road?")).
  - reflexivity.
  - eexists. split; [vm_compute; left; reflexivity | reflexivity].
  - reflexivity.
  - reflexivity.
  - apply sample_generation_carries.
  - reflexivity.
Defined.

(** X2.  When the reply has arrived but the commit raises, the reply is
    dropped: the call returns "An unexpected error occurred: ..." with the
    commit's message and the database is left as it was. *)
Theorem refused_commit_drops_reply (w : World) (db : Database) (character_name : string)
    (user_input : option string) (user_id : Z) (chat_id : option string)
    (response : Response.t) (payload : Json.t) (reply : string) (e : exn) :
  answered w (chat_with_character w db character_name user_input user_id chat_id) response ->
  Response.status_code response = 200%Z ->
  Response.json response = Ok payload ->
  carries payload reply ->
  commit w = Some e ->
  returned (chat_with_character w db character_name user_input user_id chat_id)
  = (Json.JStr ("An unexpected error occurred: " ++ str_exn e), mint w chat_id)
  /\ database (chat_with_character w db character_name user_input user_id chat_id) = db.
Proof.
  intros Hans Hstatus Hjson Hcarries Hcommit.
  destruct (Query.first (Query.characters_by_name character_name db)) as [character|] eqn:F.
  - pose proof (answered_found _ _ _ _ _ _ _ _ F Hans) as Hpost.
    pose proof (generate_commit_refused w db character user_input user_id chat_id _ _ _ _ _
                  Hpost Hstatus Hjson Hcarries Hcommit) as G.
    rewrite (chat_raised _ _ _ _ _ _ character F _ G). now split.
  - destruct Hans as [prompt [Hin _]].
    rewrite (chat_not_found _ _ _ _ _ _ F) in Hin. destruct Hin.
Qed.

Lemma refused_commit_drops_reply_witness :
  returned (chat_with_character Scenario.read_only Sample.chatty "Chuck the Clown"
              (Some "one more") 1 (Some "session-a"))
  = (Json.JStr "An unexpected error occurred: attempt to write a readonly database",
     mint Scenario.read_only (Some "session-a"))
  /\ database (chat_with_character Scenario.read_only Sample.chatty "Chuck the Clown"
                 (Some "one more") 1 (Some "session-a")) = Sample.chatty.
Proof.
  apply (refused_commit_drops_reply Scenario.read_only Sample.chatty "Chuck the Clown"
           (Some "one more") 1 (Some "session-a")
           (Response.Build 200 "" (Ok (Sample.generation "Why did the clown cross the road?")))
           (Sample.generation "Why did the clown cross the road?")
           "Why did the clown cross the road?"
           (ExternalError "attempt to write a readonly database")).
  - eexists. split; [vm_compute; left; reflexivity | reflexivity].
  - reflexivity.
  - reflexivity.
  - apply sample_generation_carries.
  - reflexivity.
Defined.

(** The turns after a call are the turns before and at most one more. *)
Lemma chat_appends (w : World) (db : Database) (character_name : string)
    (user_input : option string) (user_id : Z) (chat_id : option string) :
  exists added,
    conversations (database (chat_with_character w db character_name user_input user_id chat_id))
    = (conversations db ++ added)%list
    /\ (List.length added <= 1)%nat
    /\ characters (database (chat_with_character w db character_name user_input user_id chat_id))
       = characters db
    /\ Forall (fun row =>
                 Conversation.user_id row = user_id
                 /\ Conversation.chat_id row = mint w chat_id
                 /\ Conversation.user_input row = user_input
                 /\ Conversation.timestamp row = utcnow w
                 /\ exists character,
                      In character (characters db)
                      /\ Character.name character = character_name
                      /\ Character.id character = Conversation.character_id row)
              added.
Proof.
  destruct (chat_outcomes w db character_name user_input user_id chat_id)
    as [[_ ->] | [character [F [_ [[-> _] | [text [_ ->]]]]]]].
  - exists []. cbn. rewrite app_nil_r. repeat split; auto.
  - exists []. rewrite app_nil_r. repeat split; auto.
  - eexists [_]. cbn [conversations characters]. split; [reflexivity|].
    split; [simpl; lia|]. split; [reflexivity|].
    constructor; [|constructor]. unfold written_turn. cbn.
    repeat split. exists character.
    destruct (lookup_found _ _ _ F) as [Hin Hname]. now repeat split.
Qed.

(** X3.  Whatever the world does, a call only ever appends: the personas
    are untouched and the turns afterwards are the turns before followed by
    at most one new turn, which belongs to the calling user, carries the
    session identifier in force, the given input and the clock's time, and
    refers to a stored persona of the requested name. *)
Theorem turns_are_append_only (w : World) (db : Database) (character_name : string)
    (user_input : option string) (user_id : Z) (chat_id : option string) :
  exists added,
    conversations (database (chat_with_character w db character_name user_input user_id chat_id))
    = (conversations db ++ added)%list
    /\ (List.length added <= 1)%nat
    /\ characters (database (chat_with_character w db character_name user_input user_id chat_id))
       = characters db
    /\ Forall (fun row =>
                 Conversation.user_id row = user_id
                 /\ Conversation.chat_id row = mint w chat_id
                 /\ Conversation.user_input row = user_input
                 /\ Conversation.timestamp row = utcnow w
                 /\ exists character,
                      In character (characters db)
                      /\ Character.name character = character_name
                      /\ Character.id character = Conversation.character_id row)
              added.
Proof. apply chat_appends. Qed.

(** X4.  A call keeps the primary keys of the turns pairwise different. *)
Theorem turn_ids_stay_distinct (w : World) (db : Database) (character_name : string)
    (user_input : option string) (user_id : Z) (chat_id : option string) :
  NoDup (map Conversation.id (conversations db)) ->
  NoDup (map Conversation.id
           (conversations
              (database (chat_with_character w db character_name user_input user_id chat_id)))).
Proof.
  intros ND.
  destruct (chat_outcomes w db character_name user_input user_id chat_id)
    as [[_ ->] | [character [F [_ [[-> _] | [text [_ ->]]]]]]]; try exact ND.
  cbn [conversations]. rewrite map_app. cbn [map written_turn Conversation.id].
  apply NoDup_app; [exact ND | repeat constructor; intros [] |].
  intros i Hi [<-|[]]. exact (next_id_fresh _ Hi).
Qed.

Lemma turn_ids_stay_distinct_witness :
  NoDup (map Conversation.id
           (conversations
              (database (chat_with_character Sample.replying Sample.chatty "Chuck the Clown"
                           (Some "one more") 1 (Some "session-a"))))).
Proof.
  apply (turn_ids_stay_distinct Sample.replying Sample.chatty).
  simpl. repeat constructor; simpl; intuition discriminate.
Defined.

(** X5.  A call keeps the foreign key: if every turn referred to a stored
    persona before, every turn does afterwards. *)
Theorem chat_keeps_references (w : World) (db : Database) (character_name : string)
    (user_input : option string) (user_id : Z) (chat_id : option string) :
  referential_integrity db ->
  referential_integrity
    (database (chat_with_character w db character_name user_input user_id chat_id)).
Proof.
  intros RI.
  destruct (chat_appends w db character_name user_input user_id chat_id)
    as [added [Hc [_ [Hch Hall]]]].
  unfold referential_integrity. rewrite Hc, Hch. intros c Hin.
  apply in_app_or in Hin. destruct Hin as [Hin|Hin]; [now apply RI|].
  rewrite Forall_forall in Hall.
  destruct (Hall c Hin) as [_ [_ [_ [_ [character [H1 [_ H2]]]]]]].
  now exists character.
Qed.

Lemma chat_keeps_references_witness :
  referential_integrity
    (database (chat_with_character Sample.replying Sample.chatty "Chuck the Clown"
                 (Some "one more") 1 (Some "session-a"))).
Proof.
  apply (chat_keeps_references Sample.replying Sample.chatty).
  apply references_ok_spec. vm_compute. reflexivity.
Defined.

(** ** Sessions over several calls *)

Lemma insert_by_app_last {A : Type} (le : A -> A -> bool) (a x : A) (rows : list A) :
  le a x = true ->
  Query.insert_by le a (rows ++ [x]) = (Query.insert_by le a rows ++ [x])%list.
Proof.
  intros H. induction rows as [|y rest IH]; cbn [Query.insert_by app].
  - now rewrite H.
  - destruct (le a y); [reflexivity | now rewrite IH].
Qed.

(** A row whose key is not below any other stays last. *)
Lemma order_by_app_last {A : Type} (key : A -> Z) (rows : list A) (x : A) :
  (forall y, In y rows -> (key y <= key x)%Z) ->
  Query.order_by (Query.asc key) (rows ++ [x])
  = (Query.order_by (Query.asc key) rows ++ [x])%list.
Proof.
  induction rows as [|a rest IH]; intros H; cbn [Query.order_by app]; [reflexivity|].
  rewrite IH by (intros y Hy; apply H; now right).
  apply insert_by_app_last. unfold Query.asc. apply Z.leb_le. apply H. now left.
Qed.

Section AfterWrite.

Variable db : Database.
Variable row : Conversation.t.

Let db' : Database :=
  {| characters := characters db; conversations := (conversations db ++ [row])%list |}.

Lemma by_chat_after_own (user_id : Z) (chat_id : option string) :
  Conversation.user_id row = user_id ->
  Conversation.chat_id row = chat_id ->
  Query.conversations_by_chat user_id chat_id db'
  = (Query.conversations_by_chat user_id chat_id db ++ [row])%list.
Proof.
  intros Hu Hc. unfold Query.conversations_by_chat, db'. cbn [conversations].
  rewrite filter_app. cbn [filter].
  rewrite Hu, Hc, Z.eqb_refl. cbn [andb].
  now rewrite (proj2 (same_chat_id_true chat_id chat_id) eq_refl).
Qed.

Lemma by_chat_after_other (user_id : Z) (chat_id : option string) :
  Conversation.user_id row <> user_id \/ Conversation.chat_id row <> chat_id ->
  Query.conversations_by_chat user_id chat_id db'
  = Query.conversations_by_chat user_id chat_id db.
Proof.
  intros H. unfold Query.conversations_by_chat, db'. cbn [conversations].
  rewrite filter_app. cbn [filter].
  assert (E : (Conversation.user_id row =? user_id)%Z
              && Query.same_chat_id (Conversation.chat_id row) chat_id = false).
  { apply andb_false_iff. destruct H as [H|H].
    - left. now apply Z.eqb_neq.
    - right. destruct (Query.same_chat_id (Conversation.chat_id row) chat_id) eqn:S;
        [|reflexivity]. apply same_chat_id_true in S. contradiction. }
  rewrite E. apply app_nil_r.
Qed.

Lemma session_after_own (user_id : Z) (chat_id : option string) :
  Conversation.user_id row = user_id ->
  Conversation.chat_id row = chat_id ->
  (forall c, in_session db user_id chat_id c ->
             (Conversation.timestamp c <= Conversation.timestamp row)%Z) ->
  Query.order_by (Query.asc Conversation.timestamp)
    (Query.conversations_by_chat user_id chat_id db')
  = (Query.order_by (Query.asc Conversation.timestamp)
       (Query.conversations_by_chat user_id chat_id db) ++ [row])%list.
Proof.
  intros Hu Hc Hlate. rewrite by_chat_after_own by assumption.
  apply order_by_app_last. intros y Hy. apply Hlate.
  now apply conversations_by_chat_In.
Qed.

End AfterWrite.

(** What a call that stored a turn stored: the text of the returned value. *)
Lemma stored_turn (w : World) (db : Database) (character_name : string)
    (user_input : option string) (user_id : Z) (chat_id : option string)
    (row : Conversation.t) :
  conversations (database (chat_with_character w db character_name user_input user_id chat_id))
  = (conversations db ++ [row])%list ->
  database (chat_with_character w db character_name user_input user_id chat_id)
  = {| characters := characters db; conversations := (conversations db ++ [row])%list |}
  /\ snd (returned (chat_with_character w db character_name user_input user_id chat_id))
     = mint w chat_id
  /\ Conversation.user_id row = user_id
  /\ Conversation.chat_id row = mint w chat_id
  /\ Conversation.timestamp row = utcnow w
  /\ Conversation.user_input row = user_input
  /\ stored_text
       (fst (returned (chat_with_character w db character_name user_input user_id chat_id)))
     = Ok (Conversation.bot_response row).
Proof.
  destruct (chat_outcomes w db character_name user_input user_id chat_id)
    as [[_ E] | [character [F [Hid [[E _] | [text [T E]]]]]]].
  - rewrite E. cbn [database]. intros H. elim (app_one_neq _ _ H).
  - rewrite E. intros H. elim (app_one_neq _ _ H).
  - intros H. rewrite E in H. cbn [conversations] in H. apply app_inv_head in H.
    injection H as <-. rewrite E. repeat split; try reflexivity; assumption.
Qed.

(** X6.  A turn stored by a call is in the context of the next call that
    passes the returned session identifier back: provided no turn of the
    session is dated after the clock's time, the prior turns selected then
    are the ones selected now followed by the new turn. *)
Theorem session_context_grows (w w' : World) (db : Database) (character_name : string)
    (user_input : option string) (user_id : Z) (chat_id : option string)
    (character : Character.t) (row : Conversation.t) :
  conversations (database (chat_with_character w db character_name user_input user_id chat_id))
  = (conversations db ++ [row])%list ->
  (forall c, in_session db user_id (mint w chat_id) c ->
             (Conversation.timestamp c <= utcnow w)%Z) ->
  previous_conversations
    (database (chat_with_character w db character_name user_input user_id chat_id))
    character user_id
    (mint w' (snd (returned (chat_with_character w db character_name user_input
                               user_id chat_id))))
  = (previous_conversations db character user_id (mint w chat_id) ++ [row])%list.
Proof.
  intros Hstored Hlate.
  destruct (stored_turn _ _ _ _ _ _ _ Hstored) as [-> [-> [Hu [Hc [Ht _]]]]].
  rewrite (mint_supplied w' _ (mint_truthy w chat_id)).
  rewrite !previous_conversations_minted.
  apply session_after_own; try assumption.
  intros c Hin. rewrite Ht. now apply Hlate.
Qed.

Lemma session_context_grows_witness :
  previous_conversations
    (database (chat_with_character Sample.replying Sample.chatty "Chuck the Clown"
                 (Some "one more") 1 (Some "session-a")))
    Sample.chuck 1
    (mint Scenario.later
       (snd (returned (chat_with_character Sample.replying Sample.chatty "Chuck the Clown"
                         (Some "one more") 1 (Some "session-a")))))
  = (previous_conversations Sample.chatty Sample.chuck 1
       (mint Sample.replying (Some "session-a"))
     ++ [Conversation.Build 5 1 (Some "one more") "Why did the clown cross the road?"
           2000 (Some "session-a") 1])%list.
Proof.
  apply (session_context_grows Sample.replying Scenario.later Sample.chatty
           "Chuck the Clown" (Some "one more") 1 (Some "session-a") Sample.chuck).
  - vm_compute. reflexivity.
  - intros c [Hin _]. simpl in Hin.
    destruct Hin as [<-|[<-|[<-|[<-|[]]]]]; simpl; lia.
Defined.

(** X7.  Appending then reading back: after a call that stored a turn,
    [get_chat_messages] for the returned session identifier and the user
    gives the messages it gave before followed by the pair of the input and
    the returned reply (no turn of the session being dated after the
    clock's time).  When the returned value is not a text, the pair holds
    the text the database stored for it. *)
Theorem stored_turn_read_back (w : World) (db : Database) (character_name : string)
    (user_input : option string) (user_id : Z) (chat_id : option string)
    (row : Conversation.t) :
  conversations (database (chat_with_character w db character_name user_input user_id chat_id))
  = (conversations db ++ [row])%list ->
  (forall c, in_session db user_id (mint w chat_id) c ->
             (Conversation.timestamp c <= utcnow w)%Z) ->
  (forall reply,
     fst (returned (chat_with_character w db character_name user_input user_id chat_id))
     = Json.JStr reply ->
     get_chat_messages
       (database (chat_with_character w db character_name user_input user_id chat_id))
       (snd (returned (chat_with_character w db character_name user_input user_id chat_id)))
       user_id
     = (get_chat_messages db (mint w chat_id) user_id ++ [(user_input, reply)])%list)
  /\ exists text,
       stored_text
         (fst (returned (chat_with_character w db character_name user_input user_id chat_id)))
       = Ok text
       /\ get_chat_messages
            (database (chat_with_character w db character_name user_input user_id chat_id))
            (snd (returned (chat_with_character w db character_name user_input
                              user_id chat_id)))
            user_id
          = (get_chat_messages db (mint w chat_id) user_id ++ [(user_input, text)])%list.
Proof.
  intros Hstored Hlate.
  destruct (stored_turn _ _ _ _ _ _ _ Hstored) as [E [Hid [Hu [Hc [Ht [Hi Hb]]]]]].
  assert (R : get_chat_messages
                (database (chat_with_character w db character_name user_input
                             user_id chat_id))
                (snd (returned (chat_with_character w db character_name user_input
                                  user_id chat_id)))
                user_id
              = (get_chat_messages db (mint w chat_id) user_id
                 ++ [(user_input, Conversation.bot_response row)])%list).
  { rewrite E, Hid. unfold get_chat_messages.
    rewrite session_after_own; try assumption.
    - rewrite map_app. cbn [map]. now rewrite Hi.
    - intros c Hin. rewrite Ht. now apply Hlate. }
  split.
  - intros reply Hreply. rewrite Hreply in Hb. cbn [stored_text] in Hb.
    injection Hb as ->. exact R.
  - exists (Conversation.bot_response row). now split.
Qed.

Lemma stored_turn_read_back_witness :
  get_chat_messages
    (database (chat_with_character Sample.replying Sample.chatty "Chuck the Clown"
                 (Some "one more") 1 (Some "session-a")))
    (snd (returned (chat_with_character Sample.replying Sample.chatty "Chuck the Clown"
                      (Some "one more") 1 (Some "session-a"))))
    1
  = (get_chat_messages Sample.chatty (mint Sample.replying (Some "session-a")) 1
     ++ [(Some "one more", "Why did the clown cross the road?")])%list.
Proof.
  apply (proj1 (stored_turn_read_back Sample.replying Sample.chatty "Chuck the Clown"
                  (Some "one more") 1 (Some "session-a")
                  (Conversation.Build 5 1 (Some "one more")
                     "Why did the clown cross the road?" 2000 (Some "session-a") 1)
                  ltac:(vm_compute; reflexivity)
                  ltac:(intros c [Hin _]; simpl in Hin;
                        destruct Hin as [<-|[<-|[<-|[<-|[]]]]]; simpl; lia))).
  vm_compute. reflexivity.
Defined.

(** X8.  A call never changes what [get_chat_messages] shows for another
    user or for another session: for every pair of a session identifier and
    a user other than the pair the call ran under, the messages are the same
    before and after. *)
Theorem other_sessions_untouched (w : World) (db : Database) (character_name : string)
    (user_input : option string) (user_id : Z) (chat_id : option string)
    (other_chat : option string) (other_user : Z) :
  other_user <> user_id \/ other_chat <> mint w chat_id ->
  get_chat_messages
    (database (chat_with_character w db character_name user_input user_id chat_id))
    other_chat other_user
  = get_chat_messages db other_chat other_user.
Proof.
  intros H.
  destruct (chat_outcomes w db character_name user_input user_id chat_id)
    as [[_ ->] | [character [F [_ [[-> _] | [text [_ ->]]]]]]]; try reflexivity.
  unfold get_chat_messages. rewrite by_chat_after_other; [reflexivity|].
  unfold written_turn. cbn [Conversation.user_id Conversation.chat_id].
  destruct H as [H|H]; [left | right]; congruence.
Qed.

Lemma other_sessions_untouched_witness :
  get_chat_messages
    (database (chat_with_character Sample.replying Sample.chatty "Chuck the Clown"
                 (Some "one more") 1 (Some "session-c")))
    (Some "session-c") 2
  = get_chat_messages Sample.chatty (Some "session-c") 2.
Proof.
  apply (other_sessions_untouched Sample.replying Sample.chatty "Chuck the Clown"
           (Some "one more") 1 (Some "session-c") (Some "session-c") 2).
  left. discriminate.
Defined.

(** ** Which turns enter the prompt *)

(** X9.  The prior turns a call builds its prompt from are exactly the
    caller's own turns stored under the session identifier in force, read
    in order of time; neither the persona nor a bound on their number plays
    any part in the selection. *)
Theorem context_is_the_session (w : World) (db : Database) (character : Character.t)
    (user_id : Z) (chat_id : option string) :
  (forall c, In c (previous_conversations db character user_id (mint w chat_id))
             <-> in_session db user_id (mint w chat_id) c)
  /\ StronglySorted
       (fun a b => (Conversation.timestamp a <= Conversation.timestamp b)%Z)
       (previous_conversations db character user_id (mint w chat_id))
  /\ List.length (previous_conversations db character user_id (mint w chat_id))
     = List.length
         (filter (fun c => (Conversation.user_id c =? user_id)%Z
                           && Query.same_chat_id (Conversation.chat_id c) (mint w chat_id))
                 (conversations db)).
Proof.
  rewrite previous_conversations_minted.
  pose proof (order_by_perm _ (Query.asc Conversation.timestamp)
                (Query.conversations_by_chat user_id (mint w chat_id) db)) as P.
  split; [|split].
  - intros c. rewrite <- conversations_by_chat_In. split; intros H.
    + eapply Permutation_in; [exact P | exact H].
    + eapply Permutation_in; [apply Permutation_sym, P | exact H].
  - pose proof (order_by_sorted _ (Query.asc Conversation.timestamp)
                  (asc_total _) (asc_trans _)
                  (Query.conversations_by_chat user_id (mint w chat_id) db)) as S.
    clear P. induction S as [|a l S IH Hall]; [constructor|].
    constructor; [exact IH|].
    eapply Forall_impl; [|exact Hall]. intros b H.
    unfold Query.asc in H. now apply Z.leb_le.
  - apply Permutation_length in P. exact P.
Qed.

(** X10.  A call without session identifier starts from nothing: when the
    identifier minted for it is not yet carried by a turn of the user, the
    prompt posted holds the persona's template and the new input only,
    however many turns the user has had with the persona. *)
Theorem fresh_session_starts_empty (w : World) (db : Database) (character_name : string)
    (user_input : option string) (user_id : Z) (chat_id : option string)
    (character : Character.t) :
  Py.truthy chat_id = false ->
  Query.first (Query.characters_by_name character_name db) = Some character ->
  (forall c, In c (conversations db) -> Conversation.user_id c = user_id ->
             Conversation.chat_id c <> Some (Uuid.str (uuid4 w))) ->
  posted (chat_with_character w db character_name user_input user_id chat_id)
  = [Character.prompt_template character ++ Py.nl ++ Py.nl
       ++ "User: " ++ Py.fmt user_input ++ Py.nl ++ "Bot:"].
Proof.
  intros Hnone F Hfresh.
  rewrite (chat_posted _ _ _ _ _ _ character F).
  rewrite previous_conversations_minted, (mint_absent _ _ Hnone).
  assert (E : Query.conversations_by_chat user_id (Some (Uuid.str (uuid4 w))) db = []).
  { destruct (Query.conversations_by_chat user_id (Some (Uuid.str (uuid4 w))) db)
      as [|c rest] eqn:Q; [reflexivity|].
    assert (Hin : In c (Query.conversations_by_chat user_id (Some (Uuid.str (uuid4 w))) db))
      by (rewrite Q; now left).
    apply conversations_by_chat_In in Hin. destruct Hin as [H1 [H2 H3]].
    elim (Hfresh c H1 H2 H3). }
  rewrite E. reflexivity.
Qed.

Lemma fresh_session_starts_empty_witness :
  posted (chat_with_character Sample.replying Sample.chatty "Chuck the Clown"
            (Some "tell me a joke") 1 None)
  = [Character.prompt_template Sample.chuck ++ Py.nl ++ Py.nl
       ++ "User: " ++ Py.fmt (Some "tell me a joke") ++ Py.nl ++ "Bot:"].
Proof.
  apply (fresh_session_starts_empty Sample.replying Sample.chatty "Chuck the Clown"
           (Some "tell me a joke") 1 None Sample.chuck).
  - reflexivity.
  - reflexivity.
  - intros c Hin _. simpl in Hin.
    destruct Hin as [<-|[<-|[<-|[<-|[]]]]]; vm_compute; discriminate.
Defined.

(** ** Answers of the remote model that are not generations *)

(** X11.  For a status other than 200 the returned text carries the status
    code and the body only when the body decodes as JSON; when decoding the
    body raises, the text is "An unexpected error occurred: ..." with the
    decoder's message and the status is not reported.  The session
    identifier in force is returned in both cases. *)
Theorem status_reported_if_body_decodes (w : World) (db : Database) (character_name : string)
    (user_input : option string) (user_id : Z) (chat_id : option string)
    (response : Response.t) :
  answered w (chat_with_character w db character_name user_input user_id chat_id) response ->
  Response.status_code response <> 200%Z ->
  (forall payload,
     Response.json response = Ok payload ->
     returned (chat_with_character w db character_name user_input user_id chat_id)
     = (Json.JStr
          ("An error occurred while generating content: "
             ++ Py.str_int (Response.status_code response) ++ " - "
             ++ Response.text response),
        mint w chat_id))
  /\ (forall e,
        Response.json response = Raise e ->
        returned (chat_with_character w db character_name user_input user_id chat_id)
        = (Json.JStr ("An unexpected error occurred: " ++ str_exn e), mint w chat_id)).
Proof.
  intros Hans Hstatus.
  destruct (Query.first (Query.characters_by_name character_name db)) as [character|] eqn:F.
  - pose proof (answered_found _ _ _ _ _ _ _ _ F Hans) as Hpost.
    apply Z.eqb_neq in Hstatus.
    split.
    + intros payload Hjson.
      erewrite (chat_returned _ _ _ _ _ _ character F); [reflexivity|].
      unfold generate. rewrite Hpost. cbn [obind]. rewrite Hstatus, Hjson. reflexivity.
    + intros e Hjson.
      erewrite (chat_raised _ _ _ _ _ _ character F); [reflexivity|].
      unfold generate. rewrite Hpost. cbn [obind]. rewrite Hstatus, Hjson. reflexivity.
  - destruct Hans as [prompt [Hin _]].
    rewrite (chat_not_found _ _ _ _ _ _ F) in Hin. destruct Hin.
Qed.

Lemma status_reported_if_body_decodes_witness :
  returned (chat_with_character Scenario.proxied Sample.chatty "Chuck the Clown"
              (Some "one more") 1 (Some "session-a"))
  = (Json.JStr "An unexpected error occurred: Expecting value: line 1 column 1 (char 0)",
     mint Scenario.proxied (Some "session-a"))
  /\ returned (chat_with_character Sample.failing Sample.chatty "Chuck the Clown"
                 (Some "one more") 1 (Some "session-a"))
     = (Json.JStr
          ("An error occurred while generating content: "
             ++ Py.str_int (Response.status_code Sample.internal_error) ++ " - "
             ++ Response.text Sample.internal_error),
        mint Sample.failing (Some "session-a")).
Proof.
  split.
  - apply (proj2 (status_reported_if_body_decodes Scenario.proxied Sample.chatty
                    "Chuck the Clown" (Some "one more") 1 (Some "session-a")
                    Scenario.bad_gateway
                    ltac:(eexists; split; [vm_compute; left; reflexivity | reflexivity])
                    ltac:(vm_compute; discriminate))
             (ExternalError "Expecting value: line 1 column 1 (char 0)")).
    reflexivity.
  - apply (proj1 (status_reported_if_body_decodes Sample.failing Sample.chatty
                    "Chuck the Clown" (Some "one more") 1 (Some "session-a")
                    Sample.internal_error
                    ltac:(eexists; split; [vm_compute; left; reflexivity | reflexivity])
                    ltac:(vm_compute; discriminate))
             (Json.JObj [("error", Json.JObj [("code", Json.JNum 500)])])).
    reflexivity.
Defined.

(** X12.  A 200 answer whose first candidate is an object with no
    "content" member is not reported as an unexpected response format: the
    missing key raises, and the call returns
    "An unexpected error occurred: 'content'" and stores nothing. *)
Theorem candidate_without_content (w : World) (db : Database) (character_name : string)
    (user_input : option string) (user_id : Z) (chat_id : option string)
    (response : Response.t) (members candidate : list (string * Json.t))
    (others : list Json.t) :
  answered w (chat_with_character w db character_name user_input user_id chat_id) response ->
  Response.status_code response = 200%Z ->
  Response.json response = Ok (Json.JObj members) ->
  Json.lookup "candidates" members = Some (Json.JArr (Json.JObj candidate :: others)) ->
  Json.lookup "content" candidate = None ->
  returned (chat_with_character w db character_name user_input user_id chat_id)
  = (Json.JStr "An unexpected error occurred: 'content'", mint w chat_id)
  /\ database (chat_with_character w db character_name user_input user_id chat_id) = db.
Proof.
  intros Hans Hstatus Hjson Hcand Hcontent.
  destruct (Query.first (Query.characters_by_name character_name db)) as [character|] eqn:F.
  - pose proof (answered_found _ _ _ _ _ _ _ _ F Hans) as Hpost.
    rewrite (chat_raised _ _ _ _ _ _ character F (KeyError "'content'"));
      [split; reflexivity|].
    unfold generate. rewrite Hpost. cbn [obind]. rewrite Hstatus, Hjson.
    cbn [obind Z.eqb Pos.eqb].
    unfold has_candidates, candidate_text. cbn. rewrite Hcand. cbn.
    rewrite Hcontent. reflexivity.
  - destruct Hans as [prompt [Hin _]].
    rewrite (chat_not_found _ _ _ _ _ _ F) in Hin. destruct Hin.
Qed.

Lemma candidate_without_content_witness :
  returned (chat_with_character Scenario.blocked Sample.chatty "Chuck the Clown"
              (Some "one more") 1 (Some "session-a"))
  = (Json.JStr "An unexpected error occurred: 'content'",
     mint Scenario.blocked (Some "session-a"))
  /\ database (chat_with_character Scenario.blocked Sample.chatty "Chuck the Clown"
                 (Some "one more") 1 (Some "session-a")) = Sample.chatty.
Proof.
  apply (candidate_without_content Scenario.blocked Sample.chatty "Chuck the Clown"
           (Some "one more") 1 (Some "session-a")
           (Response.Build 200 ""
              (Ok (Json.JObj
                     [("candidates",
                       Json.JArr [Json.JObj [("finishReason", Json.JStr "SAFETY")]])])))
           [("candidates", Json.JArr [Json.JObj [("finishReason", Json.JStr "SAFETY")]])]
           [("finishReason", Json.JStr "SAFETY")] []).
  - eexists. split; [vm_compute; left; reflexivity | reflexivity].
  - reflexivity.
  - reflexivity.
  - reflexivity.
  - reflexivity.
Defined.

(** ** Persona store over several calls *)

Lemma lookup_known (db : Database) (name : string) :
  known db name <-> exists character,
                      Query.first (Query.characters_by_name name db) = Some character.
Proof.
  split.
  - apply lookup_present.
  - intros [character F]. exists character. now apply lookup_found.
Qed.

Lemma new_name_nodup (db : Database) (new_character : Character.t) :
  Query.first (Query.characters_by_name (Character.name new_character) db) = None ->
  NoDup (map Character.name (characters db)) ->
  NoDup (map Character.name (characters db ++ [new_character])%list).
Proof.
  intros F ND. rewrite map_app. cbn [map].
  apply NoDup_app; [exact ND | repeat constructor; intros [] |].
  intros n Hn [<-|[]]. apply in_map_iff in Hn. destruct Hn as [c [E Hin]].
  exact (lookup_none db _ F c Hin E).
Qed.

Lemma new_id_nodup (db : Database) (name description prompt_template : string) :
  NoDup (map Character.id (characters db)) ->
  NoDup (map Character.id
           (characters db
              ++ [Character.Build (Query.next_id (map Character.id (characters db)))
                    name description prompt_template])%list).
Proof.
  intros ND. rewrite map_app. cbn [map Character.id].
  apply NoDup_app; [exact ND | repeat constructor; intros [] |].
  intros i Hi [<-|[]]. exact (next_id_fresh _ Hi).
Qed.

Lemma lookup_appended (db : Database) (new_character : Character.t) :
  Query.first (Query.characters_by_name (Character.name new_character) db) = None ->
  Query.first
    (Query.characters_by_name (Character.name new_character)
       {| characters := (characters db ++ [new_character])%list;
          conversations := conversations db |})
  = Some new_character.
Proof.
  unfold Query.characters_by_name. cbn [characters]. intros F.
  rewrite filter_app. cbn [filter]. rewrite String.eqb_refl.
  destruct (filter _ (characters db)); [reflexivity | discriminate].
Qed.

(** X13.  Once a persona has been added, adding the name again is refused,
    whatever description and template come with it, and the stored persona
    is not overwritten. *)
Theorem add_character_twice (w w' : World) (db : Database)
    (name description prompt_template description' prompt_template' : string) :
  (forall c, In c (characters db) -> Character.name c <> name) ->
  commit w = None ->
  add_character w' (snd (add_character w db name description prompt_template))
    name description' prompt_template'
  = ("Character '" ++ name ++ "' already exists!",
     snd (add_character w db name description prompt_template)).
Proof.
  intros Habsent Hcommit.
  pose proof (lookup_absent db name Habsent) as F.
  rewrite (add_character_new _ _ _ _ _ F Hcommit). cbn [snd].
  eapply add_character_existing.
  exact (lookup_appended db (Character.Build _ name description prompt_template) F).
Qed.

Lemma add_character_twice_witness :
  add_character Scenario.later
    (snd (add_character Sample.replying Sample.seeded "Captain Nemo"
            "A submarine captain." "You are Captain Nemo."))
    "Captain Nemo" "An impostor." "You are not Captain Nemo."
  = ("Character '" ++ "Captain Nemo" ++ "' already exists!",
     snd (add_character Sample.replying Sample.seeded "Captain Nemo"
            "A submarine captain." "You are Captain Nemo.")).
Proof.
  apply (add_character_twice Sample.replying Scenario.later Sample.seeded "Captain Nemo").
  - intros c [<-|[<-|[<-|[]]]]; simpl; discriminate.
  - reflexivity.
Defined.

(** X14.  A persona that has been added is there for the rest of the
    program: it is the last row of [get_existing_characters], and a chat
    under its name finds it and posts a prompt built from the template it
    was added with. *)
Theorem added_character_is_usable (w w' : World) (db : Database)
    (name description prompt_template : string)
    (user_input : option string) (user_id : Z) (chat_id : option string) :
  (forall c, In c (characters db) -> Character.name c <> name) ->
  commit w = None ->
  get_existing_characters (snd (add_character w db name description prompt_template))
  = (get_existing_characters db ++ [(name, description)])%list
  /\ exists context,
       posted (chat_with_character w'
                 (snd (add_character w db name description prompt_template))
                 name user_input user_id chat_id)
       = [full_prompt prompt_template context user_input].
Proof.
  intros Habsent Hcommit.
  pose proof (lookup_absent db name Habsent) as F.
  rewrite (add_character_new _ _ _ _ _ F Hcommit). cbn [snd]. split.
  - unfold get_existing_characters. cbn [characters]. now rewrite map_app.
  - eexists.
    rewrite (chat_posted _ _ _ _ _ _ _
               (lookup_appended db (Character.Build _ name description prompt_template) F)).
    reflexivity.
Qed.

Lemma added_character_is_usable_witness :
  get_existing_characters
    (snd (add_character Sample.replying Sample.seeded "Captain Nemo"
            "A submarine captain." "You are Captain Nemo."))
  = (get_existing_characters Sample.seeded ++ [("Captain Nemo", "A submarine captain.")])%list
  /\ exists context,
       posted (chat_with_character Scenario.later
                 (snd (add_character Sample.replying Sample.seeded "Captain Nemo"
                         "A submarine captain." "You are Captain Nemo."))
                 "Captain Nemo" (Some "ahoy") 1 None)
       = [full_prompt "You are Captain Nemo." context (Some "ahoy")].
Proof.
  apply (added_character_is_usable Sample.replying Scenario.later Sample.seeded
           "Captain Nemo" "A submarine captain." "You are Captain Nemo.").
  - intros c [<-|[<-|[<-|[]]]]; simpl; discriminate.
  - reflexivity.
Defined.

(** X15.  [add_character] never touches the turns, keeps the primary keys
    of the personas pairwise different and keeps every turn's reference to
    a stored persona valid, whether it adds, refuses or rolls back. *)
Theorem add_character_keeps_store_sound (w : World) (db : Database)
    (name description prompt_template : string) :
  conversations (snd (add_character w db name description prompt_template))
  = conversations db
  /\ (NoDup (map Character.id (characters db)) ->
      NoDup (map Character.id
               (characters (snd (add_character w db name description prompt_template)))))
  /\ (referential_integrity db ->
      referential_integrity (snd (add_character w db name description prompt_template))).
Proof.
  destruct (Query.first (Query.characters_by_name name db)) as [character|] eqn:F.
  - rewrite (add_character_existing _ _ _ _ _ character F). now repeat split.
  - destruct (commit w) as [e|] eqn:C.
    + rewrite (add_character_refused _ _ _ _ _ e F C). now repeat split.
    + rewrite (add_character_new _ _ _ _ _ F C). cbn [snd conversations characters].
      split; [reflexivity|]. split.
      * apply new_id_nodup.
      * intros RI c Hin. destruct (RI c Hin) as [char [H1 H2]].
        exists char. split; [|exact H2]. cbn [characters]. apply in_or_app. now left.
Qed.

Lemma add_character_keeps_store_sound_witness :
  NoDup (map Character.id
           (characters (snd (add_character Sample.replying Sample.chatty "Captain Nemo"
                               "A submarine captain." "You are Captain Nemo."))))
  /\ referential_integrity
       (snd (add_character Sample.replying Sample.chatty "Captain Nemo"
               "A submarine captain." "You are Captain Nemo.")).
Proof.
  split.
  - apply (proj1 (proj2 (add_character_keeps_store_sound Sample.replying Sample.chatty
                           "Captain Nemo" "A submarine captain." "You are Captain Nemo."))).
    simpl. repeat constructor; simpl; intuition discriminate.
  - apply (proj2 (proj2 (add_character_keeps_store_sound Sample.replying Sample.chatty
                           "Captain Nemo" "A submarine captain." "You are Captain Nemo."))).
    apply references_ok_spec. vm_compute. reflexivity.
Defined.

(** ** Seeding the persona store *)

Lemma stage_effect (db : Database) (seed : string * string * string) :
  conversations (stage_character db seed) = conversations db
  /\ exists added,
       characters (stage_character db seed) = (characters db ++ added)%list
       /\ Forall (fun c => (Character.name c, Character.description c,
                            Character.prompt_template c) = seed) added
       /\ known (stage_character db seed) (fst (fst seed))
       /\ (NoDup (map Character.name (characters db)) ->
           NoDup (map Character.name (characters (stage_character db seed))))
       /\ (known db (fst (fst seed)) -> stage_character db seed = db).
Proof.
  destruct seed as [[name description] prompt_template]. cbn [fst].
  unfold stage_character.
  destruct (Query.first (Query.characters_by_name name db)) as [character|] eqn:F.
  - split; [reflexivity|]. exists []. rewrite app_nil_r.
    repeat split; auto. apply lookup_known. now exists character.
  - split; [reflexivity|]. eexists [_]. cbn [characters]. split; [reflexivity|].
    split; [repeat constructor|]. split; [|split].
    + eexists. split; [apply in_or_app; right; left; reflexivity | reflexivity].
    + now apply (new_name_nodup db (Character.Build _ name description prompt_template)).
    + intros K. apply lookup_known in K. destruct K as [character K]. congruence.
Qed.

Lemma stage_known (db : Database) (seed : string * string * string) (name : string) :
  known db name -> known (stage_character db seed) name.
Proof.
  intros [c [Hin E]]. destruct (stage_effect db seed) as [_ [added [Hc _]]].
  exists c. split; [|exact E]. rewrite Hc. apply in_or_app. now left.
Qed.

Lemma stage_all_effect (seeds : list (string * string * string)) (db : Database) :
  conversations (fold_left stage_character seeds db) = conversations db
  /\ exists added,
       characters (fold_left stage_character seeds db) = (characters db ++ added)%list
       /\ Forall (fun c => In (Character.name c, Character.description c,
                               Character.prompt_template c) seeds) added
       /\ (forall seed, In seed seeds ->
                        known (fold_left stage_character seeds db) (fst (fst seed)))
       /\ (NoDup (map Character.name (characters db)) ->
           NoDup (map Character.name (characters (fold_left stage_character seeds db)))).
Proof.
  revert db. induction seeds as [|seed rest IH]; intros db; cbn [fold_left].
  - split; [reflexivity|]. exists []. rewrite app_nil_r.
    repeat split; auto. intros seed [].
  - destruct (stage_effect db seed) as [Hconv [added [Hchars [Hadded [Hknown [Hnodup _]]]]]].
    destruct (IH (stage_character db seed))
      as [Hconv' [added' [Hchars' [Hadded' [Hknown' Hnodup']]]]].
    split; [congruence|].
    exists (added ++ added')%list. split; [|split; [|split]].
    + rewrite Hchars', Hchars. now rewrite app_assoc.
    + apply Forall_app. split.
      * eapply Forall_impl; [|exact Hadded]. intros c E. left. now symmetry.
      * eapply Forall_impl; [|exact Hadded']. intros c Hin. now right.
    + intros s [<-|Hs]; [|now apply Hknown'].
      clear - Hknown. revert Hknown.
      generalize (stage_character db seed). induction rest as [|r rest IHr]; intros d K.
      * exact K.
      * cbn [fold_left]. apply IHr. now apply stage_known.
    + intros ND. apply Hnodup'. now apply Hnodup.
Qed.

Lemma stage_all_noop (seeds : list (string * string * string)) (db : Database) :
  (forall seed, In seed seeds -> known db (fst (fst seed))) ->
  fold_left stage_character seeds db = db.
Proof.
  induction seeds as [|seed rest IH]; intros K; cbn [fold_left]; [reflexivity|].
  destruct (stage_effect db seed) as [_ [_ [_ [_ [_ [_ Hnoop]]]]]].
  rewrite Hnoop by (apply K; now left).
  apply IH. intros s Hs. apply K. now right.
Qed.

(** X16.  After [add_predefined_characters] has committed, the three seed
    personas are known by name; the personas stored before are still there,
    in place, followed only by rows copied from the seed list; the turns
    are untouched and names that were pairwise different still are. *)
Theorem predefined_characters_seeded (w : World) (db : Database) :
  commit w = None ->
  (known (add_predefined_characters w db) "Chuck the Clown"
   /\ known (add_predefined_characters w db) "Sarcastic Pirate"
   /\ known (add_predefined_characters w db) "Professor Sage")
  /\ conversations (add_predefined_characters w db) = conversations db
  /\ (exists added,
        characters (add_predefined_characters w db) = (characters db ++ added)%list
        /\ Forall (fun c => In (Character.name c, Character.description c,
                                Character.prompt_template c) predefined_characters)
                  added)
  /\ (NoDup (map Character.name (characters db)) ->
      NoDup (map Character.name (characters (add_predefined_characters w db)))).
Proof.
  intros C. unfold add_predefined_characters. rewrite C. cbv zeta.
  destruct (stage_all_effect predefined_characters db)
    as [Hconv [added [Hchars [Hadded [Hknown Hnodup]]]]].
  split; [|split; [exact Hconv | split; [now exists added | exact Hnodup]]].
  split; [|split].
  - eapply (Hknown ("Chuck the Clown", _, _)). left. reflexivity.
  - eapply (Hknown ("Sarcastic Pirate", _, _)). right. left. reflexivity.
  - eapply (Hknown ("Professor Sage", _, _)). right. right. left. reflexivity.
Qed.

Lemma predefined_characters_seeded_witness :
  (known (add_predefined_characters Sample.replying Scenario.half_seeded) "Chuck the Clown"
   /\ known (add_predefined_characters Sample.replying Scenario.half_seeded)
            "Sarcastic Pirate"
   /\ known (add_predefined_characters Sample.replying Scenario.half_seeded)
            "Professor Sage")
  /\ conversations (add_predefined_characters Sample.replying Scenario.half_seeded)
     = conversations Scenario.half_seeded
  /\ (exists added,
        characters (add_predefined_characters Sample.replying Scenario.half_seeded)
        = (characters Scenario.half_seeded ++ added)%list
        /\ Forall (fun c => In (Character.name c, Character.description c,
                                Character.prompt_template c) predefined_characters)
                  added)
  /\ (NoDup (map Character.name (characters Scenario.half_seeded)) ->
      NoDup (map Character.name
               (characters (add_predefined_characters Sample.replying
                              Scenario.half_seeded)))).
Proof.
  apply (predefined_characters_seeded Sample.replying Scenario.half_seeded). reflexivity.
Defined.

(** Seeding a store that holds the pirate and a persona of its own adds the
    clown and the professor, in the order of the seed list, under the next
    two keys. *)
Example seeding_half_seeded :
  map (fun c => (Character.id c, Character.name c))
      (characters (add_predefined_characters Sample.replying Scenario.half_seeded))
  = [(1%Z, "Captain Nemo"); (2%Z, "Sarcastic Pirate"); (3%Z, "Chuck the Clown");
     (4%Z, "Professor Sage")].
Proof. vm_compute. reflexivity. Qed.

(** X17.  Seeding is idempotent: once [add_predefined_characters] has
    committed, running it again, at start-up or when the interface is
    built, adds nothing, whether or not the later commit goes through. *)
Theorem seeding_is_idempotent (w w' : World) (db : Database) :
  commit w = None ->
  add_predefined_characters w' (add_predefined_characters w db)
  = add_predefined_characters w db.
Proof.
  intros C. unfold add_predefined_characters at 1. cbv zeta.
  destruct (commit w'); [reflexivity|].
  apply stage_all_noop. intros seed Hin.
  unfold add_predefined_characters. rewrite C. cbv zeta.
  destruct (stage_all_effect predefined_characters db) as [_ [_ [_ [_ [Hknown _]]]]].
  now apply Hknown.
Qed.

Lemma seeding_is_idempotent_witness :
  add_predefined_characters Scenario.read_only
    (add_predefined_characters Sample.replying
       {| characters := [Sample.pirate]; conversations := [] |})
  = add_predefined_characters Sample.replying
      {| characters := [Sample.pirate]; conversations := [] |}.
Proof.
  apply (seeding_is_idempotent Sample.replying Scenario.read_only). reflexivity.
Defined.

Lemma auto_select_character_names (user_input name : string) :
  auto_select_character user_input = Some name ->
  name = "Professor Sage" \/ name = "Chuck the Clown" \/ name = "Sarcastic Pirate".
Proof.
  unfold auto_select_character.
  destruct (Py.any _ education_keywords); [intros H; injection H as <-; tauto|].
  destruct (Py.any _ entertainment_keywords); [intros H; injection H as <-; tauto|].
  destruct (Py.any _ adventure_keywords); [intros H; injection H as <-; tauto|].
  discriminate.
Qed.

(** X18.  In a store that has been seeded, the persona picked by
    [auto_select_character] always exists: whatever the input, the name it
    returns is found by the lookup [chat_with_character] starts with, and
    the row found carries that name. *)
Theorem auto_selected_persona_is_seeded (w : World) (db : Database)
    (user_input name : string) :
  commit w = None ->
  auto_select_character user_input = Some name ->
  exists character,
    Query.first (Query.characters_by_name name (add_predefined_characters w db))
    = Some character
    /\ Character.name character = name.
Proof.
  intros C Hsel.
  assert (K : known (add_predefined_characters w db) name).
  { unfold add_predefined_characters. rewrite C. cbv zeta.
    destruct (stage_all_effect predefined_characters db) as [_ [_ [_ [_ [Hknown _]]]]].
    destruct (auto_select_character_names _ _ Hsel) as [-> | [-> | ->]].
    - eapply (Hknown ("Professor Sage", _, _)). right. right. left. reflexivity.
    - eapply (Hknown ("Chuck the Clown", _, _)). left. reflexivity.
    - eapply (Hknown ("Sarcastic Pirate", _, _)). right. left. reflexivity. }
  apply lookup_known in K. destruct K as [character F].
  exists character. split; [exact F|]. now apply lookup_found in F.
Qed.

Lemma auto_selected_persona_is_seeded_witness :
  exists character,
    Query.first
      (Query.characters_by_name "Sarcastic Pirate"
         (add_predefined_characters Sample.replying
            {| characters := []; conversations := [] |}))
    = Some character
    /\ Character.name character = "Sarcastic Pirate".
Proof.
  apply (auto_selected_persona_is_seeded Sample.replying
           {| characters := []; conversations := [] |} "where be the TREASURE?").
  - reflexivity.
  - vm_compute. reflexivity.
Defined.

(** ** Picking a persona from the message *)

Lemma lower_char_idempotent (c : ascii) : Py.lower_char (Py.lower_char c) = Py.lower_char c.
Proof.
  destruct c as [[] [] [] [] [] [] [] []]; vm_compute; reflexivity.
Qed.

Lemma lower_idempotent (s : string) : Py.lower (Py.lower s) = Py.lower s.
Proof.
  induction s as [|c s IH]; [reflexivity|].
  cbn [Py.lower]. now rewrite lower_char_idempotent, IH.
Qed.

(** X19.  The selection does not depend on case: two inputs that agree
    once lower-cased select the same persona, and so do an input and its
    lower-cased form. *)
Theorem auto_select_ignores_case (user_input other_input : string) :
  auto_select_character (Py.lower user_input) = auto_select_character user_input
  /\ (Py.lower user_input = Py.lower other_input ->
      auto_select_character user_input = auto_select_character other_input).
Proof.
  split.
  - unfold auto_select_character. now rewrite lower_idempotent.
  - intros E. unfold auto_select_character. now rewrite E.
Qed.

Lemma auto_select_ignores_case_witness :
  auto_select_character "TELL ME A JOKE" = auto_select_character "tell me a Joke".
Proof.
  apply (proj2 (auto_select_ignores_case "TELL ME A JOKE" "tell me a Joke")).
  vm_compute. reflexivity.
Defined.

(** The "Auto Select Character" button never clears the dropdown:
    it shows the persona picked from the message when a keyword occurs in
    it, and leaves the current choice as it is when none does. *)
Theorem auto_select_keeps_choice (character_name : option string) (user_input : string) :
  (forall name, auto_select_character user_input = Some name ->
                auto_select character_name user_input = Some name)
  /\ (auto_select_character user_input = None ->
      auto_select character_name user_input = character_name).
Proof.
  unfold auto_select. split.
  - intros name H. rewrite H.
    destruct (auto_select_character_names _ _ H) as [-> | [-> | ->]]; reflexivity.
  - now intros ->.
Qed.

Lemma auto_select_keeps_choice_witness :
  auto_select (Some "Chuck the Clown") "teach me some history" = Some "Professor Sage"
  /\ auto_select (Some "Chuck the Clown") "good morning" = Some "Chuck the Clown".
Proof.
  split.
  - apply (proj1 (auto_select_keeps_choice (Some "Chuck the Clown") "teach me some history")).
    vm_compute. reflexivity.
  - apply (proj2 (auto_select_keeps_choice (Some "Chuck the Clown") "good morning")).
    vm_compute. reflexivity.
Defined.

(** ** Audio and video input *)

Lemma process_video_extracted (m : Media.t) (file : string) :
  Media.write_audiofile m file = Ok tt ->
  process_video m file
  = (text <- speech_to_text m "temp_audio.wav" ;; Ok text).
Proof.
  intros H. unfold process_video, extract_audio_from_video. now rewrite H.
Qed.

(** The audio callback leaves the typed message alone when there is
    no audio file, when the speech is not understood, and when the
    recognised text is empty. *)
Theorem transcribe_audio_keeps_text (m : Media.t) (text_input : string) :
  transcribe_audio m None text_input = Ok text_input
  /\ (forall file,
        Media.recognize m file = Ok Media.UnknownValueError ->
        transcribe_audio m (Some file) text_input = Ok text_input)
  /\ (forall file,
        Media.recognize m file = Ok (Media.Recognized "") ->
        transcribe_audio m (Some file) text_input = Ok text_input).
Proof.
  split; [reflexivity|].
  split; intros file H; unfold transcribe_audio, speech_to_text; rewrite H; reflexivity.
Qed.

Lemma transcribe_audio_keeps_text_witness :
  transcribe_audio SampleMedia.mumbling (Some "clip.wav") "typed so far" = Ok "typed so far".
Proof.
  apply (proj1 (proj2 (transcribe_audio_keeps_text SampleMedia.mumbling "typed so far"))).
  reflexivity.
Defined.

(** X20.  A failed request to the recognition service is not filtered by
    the audio callback: the text "Error: ..." that [speech_to_text] returns
    for it replaces the typed message. *)
Theorem request_error_replaces_message (m : Media.t) (file text_input msg : string) :
  Media.recognize m file = Ok (Media.RequestError msg) ->
  speech_to_text m file = Ok ("Error: " ++ msg)
  /\ transcribe_audio m (Some file) text_input = Ok ("Error: " ++ msg).
Proof.
  intros H. unfold transcribe_audio, speech_to_text. rewrite H. split; reflexivity.
Qed.

Lemma request_error_replaces_message_witness :
  speech_to_text SampleMedia.offline "clip.wav" = Ok ("Error: " ++ "recognition connection failed")
  /\ transcribe_audio SampleMedia.offline (Some "clip.wav") "typed so far"
     = Ok ("Error: " ++ "recognition connection failed").
Proof.
  apply (request_error_replaces_message SampleMedia.offline "clip.wav" "typed so far").
  reflexivity.
Defined.

(** X21.  The video callback filters only its own sentinel.  When no audio
    can be extracted the typed message is kept; but when audio is extracted
    and the speech is not understood, the text "Could not understand audio"
    replaces the typed message, and so does the "Error: ..." text of a
    failed recognition request. *)
Theorem video_sentinels (m : Media.t) (file text_input : string) :
  (forall e, Media.write_audiofile m file = Raise e ->
             transcribe_video m (Some file) text_input = Ok text_input)
  /\ (Media.write_audiofile m file = Ok tt ->
      Media.recognize m "temp_audio.wav" = Ok Media.UnknownValueError ->
      transcribe_video m (Some file) text_input = Ok "Could not understand audio")
  /\ (forall msg,
        Media.write_audiofile m file = Ok tt ->
        Media.recognize m "temp_audio.wav" = Ok (Media.RequestError msg) ->
        transcribe_video m (Some file) text_input = Ok ("Error: " ++ msg)).
Proof.
  split; [|split].
  - intros e H. unfold transcribe_video, process_video, extract_audio_from_video.
    rewrite H. reflexivity.
  - intros H1 H2.
    unfold transcribe_video, process_video, extract_audio_from_video, speech_to_text.
    rewrite H1. cbn. rewrite H2. reflexivity.
  - intros msg H1 H2.
    unfold transcribe_video, process_video, extract_audio_from_video, speech_to_text.
    rewrite H1. cbn. rewrite H2. reflexivity.
Qed.

Lemma video_sentinels_witness :
  transcribe_video SampleMedia.silent_film (Some "clip.mp4") "typed so far" = Ok "typed so far"
  /\ transcribe_video SampleMedia.mumbling (Some "clip.mp4") "typed so far"
     = Ok "Could not understand audio"
  /\ transcribe_video SampleMedia.offline (Some "clip.mp4") "typed so far"
     = Ok ("Error: " ++ "recognition connection failed").
Proof.
  split; [|split].
  - apply (proj1 (video_sentinels SampleMedia.silent_film "clip.mp4" "typed so far")
             (ExternalError "'NoneType' object has no attribute 'write_audiofile'")).
    reflexivity.
  - apply (proj1 (proj2 (video_sentinels SampleMedia.mumbling "clip.mp4" "typed so far")));
      reflexivity.
  - apply (proj2 (proj2 (video_sentinels SampleMedia.offline "clip.mp4" "typed so far")));
      reflexivity.
Defined.

(** X22.  Recognised speech reaches the message box through both
    callbacks: a non-empty text other than the callback's sentinel replaces
    the typed message, from an audio file directly and from a video through
    the extracted track. *)
Theorem recognised_speech_is_used (m : Media.t) (file text_input text : string) :
  text <> "" ->
  (text <> "Could not understand audio" ->
   Media.recognize m file = Ok (Media.Recognized text) ->
   transcribe_audio m (Some file) text_input = Ok text)
  /\ (text <> "Failed to process video" ->
      Media.write_audiofile m file = Ok tt ->
      Media.recognize m "temp_audio.wav" = Ok (Media.Recognized text) ->
      transcribe_video m (Some file) text_input = Ok text).
Proof.
  intros Hne. apply truthy_nonempty in Hne. split.
  - intros Hs H. apply String.eqb_neq in Hs.
    unfold transcribe_audio, speech_to_text. rewrite H. cbn [obind].
    now rewrite Hne, Hs.
  - intros Hs H1 H2. apply String.eqb_neq in Hs.
    unfold transcribe_video. rewrite (process_video_extracted _ _ H1).
    unfold speech_to_text. rewrite H2. cbn [obind].
    now rewrite Hne, Hs.
Qed.

Lemma recognised_speech_is_used_witness :
  transcribe_audio SampleMedia.clear (Some "clip.wav") "typed so far" = Ok "tell me a joke"
  /\ transcribe_video SampleMedia.clear (Some "clip.mp4") "typed so far" = Ok "tell me a joke".
Proof.
  split.
  - apply (proj1 (recognised_speech_is_used SampleMedia.clear "clip.wav" "typed so far"
                    "tell me a joke" ltac:(discriminate)));
      [discriminate | reflexivity].
  - apply (proj2 (recognised_speech_is_used SampleMedia.clear "clip.mp4" "typed so far"
                    "tell me a joke" ltac:(discriminate)));
      [discriminate | reflexivity | reflexivity].
Defined.

(** ** The history and the sessions it lists *)

Lemma filter_none {A : Type} (f : A -> bool) (l : list A) :
  (forall x, In x l -> f x = false) -> filter f l = [].
Proof.
  induction l as [|x l IH]; intros H; [reflexivity|].
  cbn [filter]. rewrite (H x (or_introl eq_refl)). apply IH. intros y Hy. apply H. now right.
Qed.

Section HistoryFacts.

Variable strftime : Z -> string.
Variable db : Database.
Variable user_id : Z.

(** An entry made from the first message and the count of its session. *)
Let from_session (e : History.entry) : Prop :=
  exists m,
    History.first_message db user_id (entry_chat_id e) = Some m
    /\ preview_of (Conversation.user_input m) = Ok (entry_preview e)
    /\ entry_count e = History.message_count db user_id (entry_chat_id e).

Lemma session_entry_inv (s : History.session_row) (added : list History.entry) :
  History.session_entry strftime db user_id s = Ok added ->
  Forall from_session added
  /\ (forall m, History.first_message db user_id (row_chat_id s) = Some m ->
                map entry_chat_id added = [row_chat_id s]).
Proof.
  destruct s as [[chat_id character_name] start]. unfold row_chat_id. cbn [fst].
  unfold History.session_entry.
  destruct (History.first_message db user_id chat_id) as [m|] eqn:F.
  - destruct (preview_of (Conversation.user_input m)) as [preview|e] eqn:P;
      cbn [obind]; [|discriminate].
    intros H. injection H as <-. split; [|reflexivity].
    constructor; [|constructor]. exists m. cbn. now repeat split.
  - intros H. injection H as <-. split; [constructor | discriminate].
Qed.

Lemma history_loop_inv (sessions : list History.session_row)
    (result final : list History.entry) :
  History.history_loop strftime db user_id sessions result = Ok final ->
  exists entries,
    final = (result ++ entries)%list
    /\ Forall from_session entries
    /\ (Forall (fun s => exists m,
                  History.first_message db user_id (row_chat_id s) = Some m) sessions ->
        map entry_chat_id entries = map row_chat_id sessions).
Proof.
  revert result. induction sessions as [|s rest IH]; intros result; cbn [History.history_loop].
  - intros H. injection H as <-. exists []. rewrite app_nil_r. repeat split. constructor.
  - destruct (History.session_entry strftime db user_id s) as [added|e] eqn:S;
      cbn [obind]; [|discriminate].
    intros H. destruct (IH _ H) as [entries [-> [Hall Hids]]].
    destruct (session_entry_inv s added S) as [Hadded Hid].
    exists (added ++ entries)%list. split; [now rewrite app_assoc|].
    split; [apply Forall_app; now split|].
    intros Hfirst. inversion Hfirst as [|? ? [m Hm] Hrest]; subst.
    rewrite map_app, (Hid m Hm), (Hids Hrest). reflexivity.
Qed.

Lemma messages_length (chat_id : option string) :
  List.length (get_chat_messages db chat_id user_id)
  = History.message_count db user_id chat_id.
Proof.
  unfold get_chat_messages, History.message_count. rewrite length_map.
  apply Permutation_length, order_by_perm.
Qed.

Lemma messages_first (chat_id : option string) (m : Conversation.t) :
  History.first_message db user_id chat_id = Some m ->
  exists rest,
    get_chat_messages db chat_id user_id
    = (Conversation.user_input m, Conversation.bot_response m) :: rest.
Proof.
  unfold History.first_message, get_chat_messages.
  destruct (Query.order_by _ _) as [|h rest]; [discriminate|].
  intros H. injection H as ->. eexists. reflexivity.
Qed.

End HistoryFacts.

(** X23.  What the history shows of a session is what loading the session
    shows: whenever [get_chat_history] returns, each entry's message count
    is the number of messages [get_chat_messages] returns for that session
    and user, and its preview is the preview of the input of the first of
    those messages. *)
Theorem history_agrees_with_messages (strftime : Z -> string) (db : Database) (user_id : Z)
    (result : list History.entry) (e : History.entry) :
  History.get_chat_history strftime db user_id = Ok result ->
  In e result ->
  entry_count e = List.length (get_chat_messages db (entry_chat_id e) user_id)
  /\ exists input reply rest,
       get_chat_messages db (entry_chat_id e) user_id = (Some input, reply) :: rest
       /\ preview_of (Some input) = Ok (entry_preview e).
Proof.
  unfold History.get_chat_history. intros H Hin.
  destruct (history_loop_inv _ _ _ _ _ _ H) as [entries [-> [Hall _]]].
  cbn [app] in Hin. rewrite Forall_forall in Hall.
  destruct (Hall e Hin) as [m [F [P C]]].
  split; [now rewrite messages_length|].
  destruct (messages_first _ _ _ _ F) as [rest Hm].
  destruct (Conversation.user_input m) as [input|] eqn:U; [|discriminate P].
  now exists input, (Conversation.bot_response m), rest.
Qed.

Lemma history_agrees_with_messages_witness :
  entry_count (Some "session-a", "Chuck the Clown", "tell me a joke", "1000", 2%nat)
  = List.length
      (get_chat_messages Sample.chatty
         (entry_chat_id (Some "session-a", "Chuck the Clown", "tell me a joke", "1000", 2%nat))
         1)
  /\ exists input reply rest,
       get_chat_messages Sample.chatty
         (entry_chat_id (Some "session-a", "Chuck the Clown", "tell me a joke", "1000", 2%nat))
         1
       = (Some input, reply) :: rest
       /\ preview_of (Some input)
          = Ok (entry_preview
                  (Some "session-a", "Chuck the Clown", "tell me a joke", "1000", 2%nat)).
Proof.
  apply (history_agrees_with_messages Py.str_int Sample.chatty 1
           [(Some "session-b", "Professor Sage", "Please explain the history of ...",
             "1500", 1%nat);
            (Some "session-a", "Chuck the Clown", "tell me a joke", "1000", 2%nat)]).
  - vm_compute. reflexivity.
  - right. left. reflexivity.
Defined.

(** X24.  A user without turns has an empty history, whatever the other
    users have stored, turns without [user_input] included. *)
Theorem history_empty_without_turns (strftime : Z -> string) (db : Database) (user_id : Z) :
  (forall c, In c (conversations db) -> Conversation.user_id c <> user_id) ->
  History.get_chat_history strftime db user_id = Ok [].
Proof.
  intros H. unfold History.get_chat_history, History.chat_sessions. cbv zeta.
  rewrite filter_none; [reflexivity|].
  intros [c char] Hin. apply join_In in Hin. destruct Hin as [Hc _].
  cbn [fst]. apply Z.eqb_neq. now apply H.
Qed.

Lemma history_empty_without_turns_witness :
  History.get_chat_history Py.str_int Sample.greeted 2 = Ok [].
Proof.
  apply (history_empty_without_turns Py.str_int Sample.greeted 2).
  intros c [<-|[]]. simpl. discriminate.
Defined.

Section OtherUsersWrite.

Variable strftime : Z -> string.
Variable db : Database.
Variable row : Conversation.t.
Variable user_id : Z.
Hypothesis other : Conversation.user_id row <> user_id.

Let db' : Database :=
  {| characters := characters db; conversations := (conversations db ++ [row])%list |}.

Lemma chat_sessions_after_other :
  History.chat_sessions db' user_id = History.chat_sessions db user_id.
Proof.
  unfold History.chat_sessions. cbv zeta.
  assert (E : filter (fun r => (Conversation.user_id (fst r) =? user_id)%Z) (History.join db')
              = filter (fun r => (Conversation.user_id (fst r) =? user_id)%Z)
                       (History.join db)).
  { unfold History.join, db'. cbn [conversations characters].
    rewrite flat_map_app, filter_app. cbn [flat_map]. rewrite app_nil_r.
    rewrite (filter_none _ (map (pair row) _)); [apply app_nil_r|].
    intros r Hr. apply in_map_iff in Hr. destruct Hr as [char [<- _]].
    cbn [fst]. now apply Z.eqb_neq. }
  now rewrite E.
Qed.

Lemma session_entry_after_other (s : History.session_row) :
  History.session_entry strftime db' user_id s = History.session_entry strftime db user_id s.
Proof.
  destruct s as [[chat_id character_name] start].
  unfold History.session_entry, History.first_message, History.message_count.
  fold db'. unfold db'. now rewrite by_chat_after_other by (now left).
Qed.

Lemma history_loop_after_other (sessions : list History.session_row)
    (result : list History.entry) :
  History.history_loop strftime db' user_id sessions result
  = History.history_loop strftime db user_id sessions result.
Proof.
  revert result. induction sessions as [|s rest IH]; intros result; [reflexivity|].
  cbn [History.history_loop]. rewrite session_entry_after_other.
  destruct (History.session_entry strftime db user_id s); cbn [obind]; [apply IH | reflexivity].
Qed.

Lemma history_after_other :
  History.get_chat_history strftime db' user_id = History.get_chat_history strftime db user_id.
Proof.
  unfold History.get_chat_history.
  now rewrite chat_sessions_after_other, history_loop_after_other.
Qed.

End OtherUsersWrite.

(** X25.  A call made for one user never changes the history of another:
    for every other user, [get_chat_history] gives after the call exactly
    what it gave before, even when the call used a session identifier that
    the other user's turns carry too. *)
Theorem history_untouched_by_other_users (strftime : Z -> string) (w : World) (db : Database)
    (character_name : string) (user_input : option string) (user_id : Z)
    (chat_id : option string) (other_user : Z) :
  other_user <> user_id ->
  History.get_chat_history strftime
    (database (chat_with_character w db character_name user_input user_id chat_id))
    other_user
  = History.get_chat_history strftime db other_user.
Proof.
  intros H.
  destruct (chat_outcomes w db character_name user_input user_id chat_id)
    as [[_ ->] | [character [F [_ [[-> _] | [text [_ ->]]]]]]]; try reflexivity.
  apply history_after_other. unfold written_turn. cbn [Conversation.user_id]. congruence.
Qed.

Lemma history_untouched_by_other_users_witness :
  History.get_chat_history Py.str_int
    (database (chat_with_character Sample.replying Sample.chatty "Sarcastic Pirate"
                 (Some "ahoy") 1 (Some "session-c")))
    2
  = History.get_chat_history Py.str_int Sample.chatty 2.
Proof.
  apply (history_untouched_by_other_users Py.str_int Sample.replying Sample.chatty
           "Sarcastic Pirate" (Some "ahoy") 1 (Some "session-c") 2).
  discriminate.
Defined.

(** ** Counting the turns of a history *)

Lemma sum_cons (n : nat) (l : list nat) : list_sum (n :: l) = (n + list_sum l)%nat.
Proof. reflexivity. Qed.

Section Counting.

Variable user_id : Z.

Let mine (c : Conversation.t) : bool := (Conversation.user_id c =? user_id)%Z.
Let in_chat (k : option string) (c : Conversation.t) : bool :=
  mine c && Query.same_chat_id (Conversation.chat_id c) k.

Lemma count_absent (keys : list (option string)) (c : Conversation.t) :
  ~ In (Conversation.chat_id c) keys ->
  forall l,
    list_sum (map (fun k => List.length (filter (in_chat k) (c :: l))) keys)
    = list_sum (map (fun k => List.length (filter (in_chat k) l)) keys).
Proof.
  intros Hnot l. induction keys as [|k keys IH]; [reflexivity|].
  cbn [map]. rewrite !sum_cons, IH by (intros H; apply Hnot; now right).
  assert (E : in_chat k c = false).
  { unfold in_chat. apply andb_false_iff. right.
    destruct (Query.same_chat_id (Conversation.chat_id c) k) eqn:S; [|reflexivity].
    apply same_chat_id_true in S. elim Hnot. now left. }
  cbn [filter]. now rewrite E.
Qed.

Lemma count_present (keys : list (option string)) (c : Conversation.t) :
  NoDup keys ->
  In (Conversation.chat_id c) keys ->
  mine c = true ->
  forall l,
    list_sum (map (fun k => List.length (filter (in_chat k) (c :: l))) keys)
    = S (list_sum (map (fun k => List.length (filter (in_chat k) l)) keys)).
Proof.
  intros ND Hin Hmine l. induction ND as [|k keys Hk ND IH]; [destruct Hin|].
  cbn [map]. rewrite !sum_cons.
  destruct (Query.chat_id_eq_dec (Conversation.chat_id c) k) as [E|E].
  - assert (T : in_chat k c = true).
    { unfold in_chat. rewrite Hmine. now apply same_chat_id_true. }
    rewrite count_absent by (rewrite E; exact Hk).
    cbn [filter]. rewrite T. reflexivity.
  - assert (T : in_chat k c = false).
    { unfold in_chat. apply andb_false_iff. right.
      destruct (Query.same_chat_id (Conversation.chat_id c) k) eqn:S; [|reflexivity].
      apply same_chat_id_true in S. contradiction. }
    rewrite IH by (destruct Hin as [H|H]; [congruence | exact H]).
    cbn [filter]. rewrite T. lia.
Qed.

Lemma count_others (keys : list (option string)) (c : Conversation.t) :
  mine c = false ->
  forall l,
    list_sum (map (fun k => List.length (filter (in_chat k) (c :: l))) keys)
    = list_sum (map (fun k => List.length (filter (in_chat k) l)) keys).
Proof.
  intros Hmine l. induction keys as [|k keys IH]; [reflexivity|].
  cbn [map]. rewrite !sum_cons, IH.
  cbn [filter]. unfold in_chat at 1. now rewrite Hmine.
Qed.

(** Turns grouped by session identifier: the groups of a user's turns add
    up to the user's turns. *)
Lemma groups_add_up (keys : list (option string)) (l : list Conversation.t) :
  NoDup keys ->
  (forall c, In c l -> mine c = true -> In (Conversation.chat_id c) keys) ->
  list_sum (map (fun k => List.length (filter (in_chat k) l)) keys)
  = List.length (filter mine l).
Proof.
  intros ND. induction l as [|c l IH]; intros Hcover.
  - cbn [filter List.length]. clear. induction keys as [|k keys IHk]; [reflexivity|].
    cbn [map]. rewrite sum_cons. exact IHk.
  - destruct (mine c) eqn:M.
    + rewrite count_present; auto; [|apply Hcover; [now left | exact M]].
      cbn [filter]. rewrite M. cbn [List.length]. f_equal.
      apply IH. intros c' Hc'. apply Hcover. now right.
    + rewrite count_others by exact M.
      cbn [filter]. rewrite M.
      apply IH. intros c' Hc'. apply Hcover. now right.
Qed.

End Counting.

(** X26.  The message counts of a history add up: in a store whose turns
    refer to stored personas, when [get_chat_history] returns, the sum of
    the counts of its entries is the number of turns the user has stored;
    no turn is counted twice and none is left out. *)
Theorem history_counts_add_up (strftime : Z -> string) (db : Database) (user_id : Z)
    (result : list History.entry) :
  referential_integrity db ->
  History.get_chat_history strftime db user_id = Ok result ->
  list_sum (map entry_count result)
  = List.length (filter (fun c => (Conversation.user_id c =? user_id)%Z) (conversations db)).
Proof.
  intros RI H. unfold History.get_chat_history in H.
  destruct (chat_sessions_spec db user_id RI) as [Hall [_ [Hnodup Hkeys]]].
  destruct (history_loop_inv _ _ _ _ _ _ H) as [entries [-> [Hfrom Hids]]].
  cbn [app].
  assert (Hfirst : Forall (fun s => exists m,
                             History.first_message db user_id (row_chat_id s) = Some m)
                          (History.chat_sessions db user_id)).
  { rewrite Forall_forall. intros s Hs.
    assert (Hin : In (row_chat_id s) (map row_chat_id (History.chat_sessions db user_id)))
      by now apply in_map.
    apply Hkeys in Hin. destruct Hin as [c Hc].
    now apply first_message_exists with c. }
  specialize (Hids Hfirst).
  assert (E : map entry_count entries
              = map (fun k => List.length
                                (filter (fun c => (Conversation.user_id c =? user_id)%Z
                                                  && Query.same_chat_id
                                                       (Conversation.chat_id c) k)
                                        (conversations db)))
                    (map entry_chat_id entries)).
  { rewrite map_map. apply map_ext_in. intros e He.
    rewrite Forall_forall in Hfrom. destruct (Hfrom e He) as [m [_ [_ C]]]. exact C. }
  rewrite E, Hids.
  apply groups_add_up; [exact Hnodup|].
  intros c Hc Hm. apply Hkeys. exists c. repeat split; auto. now apply Z.eqb_eq.
Qed.

Lemma history_counts_add_up_witness :
  list_sum
    (map entry_count
       [(Some "session-b", "Professor Sage", "Please explain the history of ...",
         "1500", 1%nat);
        (Some "session-a", "Chuck the Clown", "tell me a joke", "1000", 2%nat)])
  = List.length
      (filter (fun c => (Conversation.user_id c =? 1)%Z) (conversations Sample.chatty)).
Proof.
  apply (history_counts_add_up Py.str_int Sample.chatty 1).
  - apply references_ok_spec. vm_compute. reflexivity.
  - vm_compute. reflexivity.
Defined.

(** ** Reading a session back *)

Lemma order_by_sorted_id {A : Type} (key : A -> Z) (rows : list A) :
  StronglySorted (fun a b => (key a <= key b)%Z) rows ->
  Query.order_by (Query.asc key) rows = rows.
Proof.
  induction 1 as [|a l S IH Hall]; [reflexivity|].
  cbn [Query.order_by]. rewrite IH.
  destruct l as [|b l]; [reflexivity|].
  cbn [Query.insert_by]. unfold Query.asc.
  inversion Hall as [|? ? Hab _]; subst.
  now rewrite (proj2 (Z.leb_le _ _) Hab).
Qed.

(** X27.  When the turns of a session were stored in order of time, as
    they are when each is written after the previous one, [get_chat_messages]
    returns their (input, reply) pairs in the order they were stored, turns
    with equal timestamps included. *)
Theorem messages_in_stored_order (db : Database) (chat_id : option string) (user_id : Z) :
  StronglySorted
    (fun a b => (Conversation.timestamp a <= Conversation.timestamp b)%Z)
    (filter (fun c => (Conversation.user_id c =? user_id)%Z
                      && Query.same_chat_id (Conversation.chat_id c) chat_id)
            (conversations db)) ->
  get_chat_messages db chat_id user_id
  = map (fun c => (Conversation.user_input c, Conversation.bot_response c))
        (filter (fun c => (Conversation.user_id c =? user_id)%Z
                          && Query.same_chat_id (Conversation.chat_id c) chat_id)
                (conversations db)).
Proof.
  intros S. unfold get_chat_messages, Query.conversations_by_chat.
  now rewrite order_by_sorted_id.
Qed.

Lemma messages_in_stored_order_witness :
  get_chat_messages Sample.chatty (Some "session-a") 1
  = map (fun c => (Conversation.user_input c, Conversation.bot_response c))
        (filter (fun c => (Conversation.user_id c =? 1)%Z
                          && Query.same_chat_id (Conversation.chat_id c) (Some "session-a"))
                (conversations Sample.chatty)).
Proof.
  apply (messages_in_stored_order Sample.chatty (Some "session-a") 1).
  vm_compute. repeat constructor; discriminate.
Defined.

(** ** The history page *)

Lemma append_assoc (a b c : string) : (a ++ b) ++ c = a ++ b ++ c.
Proof. induction a as [|x a IH]; [reflexivity|]. cbn [append]. now rewrite IH. Qed.

Lemma occurs_head (x rest : string) : Occurs x (x ++ rest).
Proof. now exists "", rest. Qed.

Lemma occurs_after (a x s : string) : Occurs x s -> Occurs x (a ++ s).
Proof.
  intros [pre [post ->]]. exists (a ++ pre), post. now rewrite append_assoc.
Qed.

Lemma occurs_before (x s b : string) : Occurs x s -> Occurs x (s ++ b).
Proof.
  intros [pre [post ->]]. exists pre, (post ++ b). now rewrite !append_assoc.
Qed.

Lemma occurs_trans (x y s : string) : Occurs x y -> Occurs y s -> Occurs x s.
Proof.
  intros Hxy [pre [post ->]]. apply occurs_after, occurs_before, Hxy.
Qed.

Lemma cards_prefix (history : list History.entry) (html : string) :
  exists tail, fold_left (fun html e => html ++ history_card e) history html = html ++ tail.
Proof.
  revert html. induction history as [|e rest IH]; intros html; cbn [fold_left].
  - exists "". clear. induction html as [|c html IH]; [reflexivity|].
    cbn [append]. now rewrite <- IH.
  - destruct (IH (html ++ history_card e)) as [tail ->].
    exists (history_card e ++ tail). apply append_assoc.
Qed.

Lemma cards_occur (history : list History.entry) (html : string) (e : History.entry) :
  In e history ->
  Occurs (history_card e) (fold_left (fun html e => html ++ history_card e) history html).
Proof.
  revert html. induction history as [|x rest IH]; intros html Hin; [destruct Hin|].
  cbn [fold_left]. destruct Hin as [->|Hin]; [|now apply IH].
  destruct (cards_prefix rest (html ++ history_card e)) as [tail ->].
  rewrite append_assoc. apply occurs_after, occurs_head.
Qed.

Lemma occurs_prefix3 (a b c rest : string) : Occurs (a ++ b ++ c) (a ++ b ++ c ++ rest).
Proof. exists "", rest. cbn [append]. now rewrite !append_assoc. Qed.

(** X28.  The history page shows stored text as it is: for an empty
    history it is the fixed "No chat history available." block; otherwise it
    opens the container, closes it, and contains one card for every entry,
    in which the persona name, the start date and the preview of the first
    message stand verbatim, without any escaping. *)
Theorem history_page_is_verbatim (history : list History.entry) :
  format_chat_history [] = "<div class='empty-history'>No chat history available.</div>"
  /\ (history <> [] ->
      exists body,
        format_chat_history history
        = "<div class='chat-history-container'>" ++ body ++ "</div>")
  /\ (forall e, In e history ->
        Occurs (history_card e) (format_chat_history history)
        /\ Occurs ("<h3>" ++ entry_name e ++ "</h3>") (history_card e)
        /\ Occurs ("<p><strong>Started:</strong> " ++ entry_date e ++ "</p>")
                  (history_card e)
        /\ Occurs ("<p><strong>First message:</strong> " ++ entry_preview e ++ "</p>")
                  (history_card e)).
Proof.
  split; [reflexivity|]. split.
  - intros Hne. destruct history as [|x rest]; [congruence|].
    unfold format_chat_history.
    destruct (cards_prefix (x :: rest) "<div class='chat-history-container'>") as [tail ->].
    exists tail. apply append_assoc.
  - intros e Hin. split.
    + destruct history as [|x rest]; [destruct Hin|].
      unfold format_chat_history. apply occurs_before. now apply cards_occur.
    + destruct e as [[[[chat_id character] preview] date] msg_count].
      unfold history_card, entry_name, entry_date, entry_preview.
      split; [|split]; repeat (first [apply occurs_prefix3 | apply occurs_after]).
Qed.

Lemma history_page_is_verbatim_witness :
  (exists body,
     format_chat_history
       [(Some "session-a", "Chuck the Clown", "<b>tell</b> me a joke", "1000", 2%nat)]
     = "<div class='chat-history-container'>" ++ body ++ "</div>")
  /\ Occurs ("<p><strong>First message:</strong> " ++ "<b>tell</b> me a joke" ++ "</p>")
            (history_card
               (Some "session-a", "Chuck the Clown", "<b>tell</b> me a joke", "1000", 2%nat)).
Proof.
  split.
  - apply (proj1 (proj2 (history_page_is_verbatim
                           [(Some "session-a", "Chuck the Clown", "<b>tell</b> me a joke",
                             "1000", 2%nat)]))).
    discriminate.
  - apply (proj2 (proj2 (history_page_is_verbatim
                           [(Some "session-a", "Chuck the Clown", "<b>tell</b> me a joke",
                             "1000", 2%nat)]))
             (Some "session-a", "Chuck the Clown", "<b>tell</b> me a joke", "1000", 2%nat)).
    left. reflexivity.
Defined.
